(** * pip_checker: installs packages with pip and tests them for
      version compatibility

    A shallow embedding of [compatibility_server/pip_checker.py].

    The program talks to four things it does not implement: the pip
    executable (through [subprocess.run]), the PyPI JSON API (through
    [urllib.request.urlopen]), the JSON decoder and the wall clock.  They
    are gathered in a record [World]; the methods of [_OneshotPipCheck]
    are functions in a state-and-exception monad over the files of the
    scratch directory, the files outside it and a log of the external
    calls made so far.

    Files hold bytes.  The scratch directory is the fresh directory that
    [tempfile.mkdtemp] made for the run: a command writes in it through its
    two redirected streams only, and whatever else it does to the file
    system (installing, uninstalling) happens outside.  Reading a file
    back is a text-mode read: the bytes are decoded in the locale's
    encoding, which may fail, and line endings are normalised.

    Every command is one that the system can launch: [subprocess.run]
    answers a completed process with an exit code.  A pip executable that
    does not exist, or a scratch directory that cannot be written, makes
    [subprocess.run] or [open] raise an [OSError]: such runs are outside
    the model.

    Typing of the data.  [pip list --format=json] is documented to print a
    sequence of objects with string fields; such an object is a
    [gmap string string] and [pkg.get(k)] is the map lookup, [None] being
    Python's [None].  The documents of the registry are arbitrary JSON
    values ([json]); every operation the program applies to them is
    modelled with the exception Python raises when the value has another
    type.  JSON numbers are integers here: the program only tests them for
    truth and never computes with them. *)

From stdpp Require Import gmap strings list fin_maps.
From Stdlib Require Import ZArith String Ascii.

Local Open Scope string_scope.
Set Warnings "-register-all,-clear-no-such-hyp".

(** ** Exceptions *)

Inductive exn :=
| PipError (command : list string) (returncode : Z) (stderr_path : string)
| HTTPError (code : Z)
| URLError (reason : string)
| UnicodeDecodeError
| JSONDecodeError
| FileNotFoundError (path : string)
| UnboundLocalError (var : string)
| AttributeError
| TypeError
| KeyError
| IndexError.

(** [except urllib.error.HTTPError] *)
Definition is_HTTPError (e : exn) : bool :=
  match e with HTTPError _ => true | _ => false end.

Inductive outcome (A : Type) :=
| Return (a : A)
| Raise (e : exn).
Arguments Return {A} a.
Arguments Raise {A} e.

Global Instance outcome_ret : MRet outcome := @Return.
Global Instance outcome_bind : MBind outcome :=
  λ A B k o, match o with Return a => k a | Raise e => Raise e end.

(** ** JSON values, as [json.loads] builds them *)

Inductive json :=
| JNull
| JBool (b : bool)
| JNum (n : Z)
| JStr (s : string)
| JArr (xs : list json)
| JObj (kvs : list (string * json)).

(** A Python [str] or [None]. *)
Definition of_str (o : option string) : json :=
  match o with Some s => JStr s | None => JNull end.

Fixpoint assoc (k : string) (kvs : list (string * json)) : option json :=
  match kvs with
  | [] => None
  | (k', v) :: rest => if String.eqb k k' then Some v else assoc k rest
  end.

(** [k in v] for a string [k] *)
Definition py_contains (k : string) (v : json) : outcome bool :=
  match v with
  | JObj kvs => Return (bool_decide (is_Some (assoc k kvs)))
  | JArr xs =>
      Return (existsb (λ x, match x with JStr s => String.eqb s k
                                       | _ => false end) xs)
  | JStr s => Return (bool_decide (is_Some (String.index 0 k s)))
  | JNull | JBool _ | JNum _ => Raise TypeError
  end.

(** [v.get(k)]: only a dict has the method; [k] is a [str] or [None], and
    the keys of a decoded object are all [str]. *)
Definition py_get (v : json) (k : option string) : outcome json :=
  match v with
  | JObj kvs =>
      Return (match k with
              | Some s => default JNull (assoc s kvs)
              | None => JNull
              end)
  | _ => Raise AttributeError
  end.

(** [if v:] *)
Definition py_truthy (v : json) : bool :=
  match v with
  | JNull => false
  | JBool b => b
  | JNum n => negb (n =? 0)%Z
  | JStr s => negb (String.eqb s "")
  | JArr xs => match xs with [] => false | _ => true end
  | JObj kvs => match kvs with [] => false | _ => true end
  end.

(** [v[0]], for a [v] that is true *)
Definition py_item0 (v : json) : outcome json :=
  match v with
  | JArr (x :: _) => Return x
  | JArr [] => Raise IndexError
  | JStr (String c _) => Return (JStr (String c EmptyString))
  | JStr EmptyString => Raise IndexError
  | JObj _ => Raise KeyError
  | JNull | JBool _ | JNum _ => Raise TypeError
  end.

(** ** The outside world *)

Record CompletedProcess := {
  returncode : Z;
  stdout : string;      (* the bytes written to standard output *)
  stderr : string;      (* the bytes written to standard error *)
  (** what a file holds when both streams are redirected to it, through
      two descriptors that overwrite each other *)
  merged : string;
}.

(** What the registry does with a GET. *)
Inductive response :=
| Body (text : string)          (* a document, decoded as UTF-8 *)
| ErrorStatus (code : Z)        (* [urlopen] raises [HTTPError] *)
| NoAnswer (reason : string)    (* [urlopen] raises [URLError] *)
| NotUTF8.                      (* [decode] raises [UnicodeDecodeError] *)

Record World := {
  (** [subprocess.run(command, ...)]: exit code and the two streams *)
  subprocess_run : list string → CompletedProcess;
  (** what running the command does to the files outside the scratch
      directory *)
  side_effect : list string → gmap string string → gmap string string;
  (** decoding in the locale's encoding, as a text-mode [read] does;
      [None] is [UnicodeDecodeError] *)
  locale_decode : string → option string;
  (** [urlopen(Request(url))] followed by [f.read().decode('utf-8')] *)
  urlopen : string → response;
  (** [json.loads] on a registry document; [None] is [JSONDecodeError] *)
  json_loads : string → option json;
  (** [json.loads] on the output of [pip list] *)
  json_loads_pkgs : string → option (list (gmap string string));
  (** the n-th [datetime.datetime.now().isoformat()] of the run *)
  now_isoformat : nat → string;
  (** [tempfile.mkdtemp(dir=...)] *)
  mkdtemp : option string → string;
}.

Record state := {
  files : gmap string string;      (* scratch directory: path ↦ bytes *)
  elsewhere : gmap string string;  (* the other files: path ↦ bytes *)
  commands : list (list string);   (* external commands run so far *)
  requests : list string;          (* registry URLs fetched so far *)
  clock : nat;                     (* readings of the clock so far *)
}.

(** The state once [url] has been fetched *)
Definition requested (url : string) (s : state) : state :=
  {| files := files s;
     elsewhere := elsewhere s;
     commands := commands s;
     requests := requests s ++ [url];
     clock := clock s |}.

(** The state once the clock has been read *)
Definition ticked (s : state) : state :=
  {| files := files s;
     elsewhere := elsewhere s;
     commands := commands s;
     requests := requests s;
     clock := S (clock s) |}.

Definition M (A : Type) : Type := state → outcome A * state.

Definition ret {A} (a : A) : M A := λ s, (Return a, s).
Definition raise {A} (e : exn) : M A := λ s, (Raise e, s).
Definition bind {A B} (m : M A) (k : A → M B) : M B :=
  λ s, match m s with
       | (Return a, s') => k a s'
       | (Raise e, s') => (Raise e, s')
       end.
Definition lift {A} (o : outcome A) : M A := λ s, (o, s).

(** [try: m  except <handles>: handler] *)
Definition try_except {A} (m : M A) (handles : exn → bool) (handler : M A)
    : M A :=
  λ s, match m s with
       | (Return a, s') => (Return a, s')
       | (Raise e, s') => if handles e then handler s' else (Raise e, s')
       end.

Global Instance M_ret : MRet M := @ret.
Global Instance M_bind : MBind M := λ A B k m, bind m k.

(** [for x in xs: acc = body(acc, x)] *)
Fixpoint for_each {A B} (body : B → A → M B) (xs : list A) (acc : B) : M B :=
  match xs with
  | [] => mret acc
  | x :: rest => acc' ← body acc x; for_each body rest acc'
  end.

(** ** Reading a file back as text *)

Definition CR : ascii := "013"%char.
Definition LF : ascii := "010"%char.

(** Universal newlines: ['\r\n'] and ['\r'] are read as ['\n']. *)
Fixpoint universal_newlines (text : string) : string :=
  match text with
  | EmptyString => EmptyString
  | String c rest =>
      if Ascii.eqb c CR then
        match rest with
        | String c' rest' =>
            if Ascii.eqb c' LF then String LF (universal_newlines rest')
            else String LF (universal_newlines rest)
        | EmptyString => String LF EmptyString
        end
      else String c (universal_newlines rest)
  end.

(** What [open(path).read()] answers for a file that holds [bytes] *)
Definition text_of (w : World) (bytes : string) : outcome string :=
  match locale_decode w bytes with
  | Some text => Return (universal_newlines text)
  | None => Raise UnicodeDecodeError
  end.

(** ** Results *)

Inductive PipCheckResultType := SUCCESS | INSTALL_ERROR | CHECK_WARNING.

Global Instance PipCheckResultType_eq_dec : EqDecision PipCheckResultType.
Proof. solve_decision. Defined.

(** [dependency_info]: package name ↦ [pkg_info], itself a dict *)
Record PipCheckResult := {
  packages : list string;
  result_type : PipCheckResultType;
  result_text : option string;
  dependency_info : option (gmap (option string) (gmap string json));
}.

Definition with_extra_attrs (r : PipCheckResult)
    (dependency_info : option (gmap (option string) (gmap string json)))
    : PipCheckResult :=
  {| packages := packages r;
     result_type := result_type r;
     result_text := result_text r;
     dependency_info := dependency_info |}.

(** ** Paths *)

Definition ends_with_slash (a : string) : bool :=
  match String.get (String.length a - 1) a with
  | Some c => Ascii.eqb c "/"%char
  | None => false
  end.

(** [os.path.join(a, b)] of [posixpath] *)
Definition os_path_join (a b : string) : string :=
  if String.prefix "/" b then b
  else if String.eqb a "" || ends_with_slash a then a ++ b
  else a ++ "/" ++ b.

Definition PYPI_URL : string := "https://pypi.org/pypi/".

(** ['{}'.format(v)] for a [str] or [None] *)
Definition py_format (v : option string) : string := default "None" v.

(** [PYPI_URL + '{}/{}/json'.format(pkg_name, pkg_version)] *)
Definition pypi_pkg_url (pkg_name pkg_version : option string) : string :=
  PYPI_URL ++ py_format pkg_name ++ "/" ++ py_format pkg_version ++ "/json".

(** ** [_OneshotPipCheck] *)

Record OneshotPipCheck := {
  _pip_command : list string;
  _packages : list string;
  _tmp_path : option string;
  _output_directory : option string;
  _clean : bool;
}.

(** The locals of [_list] that live across the iterations of its second
    loop.  [latest_release] and [installed_release] are assigned only
    under [if 'releases' in result]; [None] is "not assigned yet". *)
Record list_locals := {
  pkg_version_date : gmap (option string) (gmap string json);
  latest_release : option json;
  installed_release : option json;
}.

Definition initial_locals : list_locals :=
  {| pkg_version_date := ∅;
     latest_release := None;
     installed_release := None |}.

(** Reading a local variable of [_list] *)
Definition read_local (var : string) (v : option json) : outcome json :=
  match v with
  | Some x => Return x
  | None => Raise (UnboundLocalError var)
  end.

(** [release[0].get('upload_time')] under [if release:], [None] otherwise *)
Definition upload_time_of (release : json) : outcome json :=
  if py_truthy release then
    first ← py_item0 release;
    py_get first (Some "upload_time")
  else Return JNull.

(** The block of [_list] from [installed_version_time = None] to the end
    of [if result is not None:].  It touches nothing but local variables:
    it answers the two release bindings as they are after the block, then
    [latest_version_time] and [installed_version_time]. *)
Definition release_times (locals : list_locals) (result : json)
    (latest_version installed_version : option string)
    : outcome (option json * option json * json * json) :=
  match result with
  | JNull =>
      Return (latest_release locals, installed_release locals, JNull, JNull)
  | _ =>
      has_releases ← py_contains "releases" result;
      '(bound_latest, bound_installed) ←
        (if has_releases : bool then
           releases ← py_get result (Some "releases");
           latest ← py_get releases latest_version;
           releases ← py_get result (Some "releases");
           installed ← py_get releases installed_version;
           Return (Some latest, Some installed)
         else
           Return (latest_release locals, installed_release locals));
      latest ← read_local "latest_release" bound_latest;
      latest_version_time ← upload_time_of latest;
      installed ← read_local "installed_release" bound_installed;
      installed_version_time ← upload_time_of installed;
      Return (bound_latest, bound_installed, latest_version_time,
              installed_version_time)
  end.

(** The first loop of [_list]: [outdated_pkgs[name] = latest_version] *)
Definition collect_outdated
    (pip_list_latest_result : list (gmap string string))
    : gmap (option string) (option string) :=
  foldl (λ outdated_pkgs pkg,
           <[pkg !! "name" := pkg !! "latest_version"]> outdated_pkgs)
        ∅ pip_list_latest_result.

(** [latest_version] and [is_latest] of one installed package:
    [[
      latest_version = installed_version
      is_latest = True
      if pkg_name in outdated_pkgs:
          latest_version = outdated_pkgs.get(pkg_name)
          if latest_version != installed_version:
              is_latest = False
    ]] *)
Definition reconcile (outdated_pkgs : gmap (option string) (option string))
    (pkg_name installed_version : option string) : option string * bool :=
  match outdated_pkgs !! pkg_name with
  | Some latest_version =>
      (latest_version,
       if decide (latest_version ≠ installed_version) then false else true)
  | None => (installed_version, true)
  end.

(** The dict literal [pkg_info] *)
Definition pkg_info (installed_version : option string)
    (installed_version_time : json) (latest_version : option string)
    (current_time : string) (latest_version_time : json) (is_latest : bool)
    : gmap string json :=
  {[ "installed_version" := of_str installed_version;
     "installed_version_time" := installed_version_time;
     "latest_version" := of_str latest_version;
     "current_time" := JStr current_time;
     "latest_version_time" := latest_version_time;
     "is_latest" := JBool is_latest ]}.

Section Program.
Variable w : World.

(** The state once [command] has run with its two streams redirected:
    [open(stdout_path, 'w')], [open(stderr_path, 'w')] and
    [subprocess.run(command, stdout=..., stderr=...)].  The two files of
    the scratch directory hold the bytes of the two streams, and the
    command has done what it does to the files elsewhere. *)
Definition redirected (command : list string)
    (stdout_path stderr_path : string) (s : state) : state :=
  {| files :=
       if decide (stdout_path = stderr_path)
       then <[stdout_path := merged (subprocess_run w command)]> (files s)
       else <[stderr_path := stderr (subprocess_run w command)]>
              (<[stdout_path := stdout (subprocess_run w command)]>
                 (files s));
     elsewhere := side_effect w command (elsewhere s);
     commands := commands s ++ [command];
     requests := requests s;
     clock := clock s |}.

Definition _run_command (command : list string)
    (stdout_path stderr_path : string) (raise_on_failure : bool) : M Z :=
  λ s,
    let completed_command := subprocess_run w command in
    let s' := redirected command stdout_path stderr_path s in
    if negb (returncode completed_command =? 0)%Z && raise_on_failure
    then (Raise (PipError command (returncode completed_command)
                   stderr_path), s')
    else (Return (returncode completed_command), s').

(** [with urllib.request.urlopen(r) as f: f.read().decode('utf-8')] *)
Definition urlopen_read_decode (url : string) : M string :=
  λ s,
    match urlopen w url with
    | Body text => (Return text, requested url s)
    | ErrorStatus code => (Raise (HTTPError code), requested url s)
    | NoAnswer reason => (Raise (URLError reason), requested url s)
    | NotUTF8 => (Raise UnicodeDecodeError, requested url s)
    end.

Definition loads (text : string) : M json :=
  match json_loads w text with
  | Some v => mret v
  | None => raise JSONDecodeError
  end.

(** Python's [None] is [JNull]: a document that is the JSON [null]
    decodes to [None] as well. *)
Definition _call_pypi_json_api (pkg_name pkg_version : option string)
    : M json :=
  try_except
    (text ← urlopen_read_decode (pypi_pkg_url pkg_name pkg_version);
     loads text)
    is_HTTPError
    (mret JNull).

Definition _build_command (self : OneshotPipCheck)
    (subcommands : list string) : list string :=
  _pip_command self ++ subcommands.

(** [os.path.join(self._output_directory, name)] *)
Definition output_path (self : OneshotPipCheck) (name : string)
    : M string :=
  match _output_directory self with
  | Some d => mret (os_path_join d name)
  | None => raise TypeError
  end.

Definition _freeze (self : OneshotPipCheck)
    (requirements_file_path : string) : M unit :=
  let command := _build_command self ["freeze"] in
  std_err_path ← output_path self "freeze-error.txt";
  _run_command command requirements_file_path std_err_path true;;
  mret tt.

Definition _uninstall (self : OneshotPipCheck)
    (requirements_file_path : string) : M unit :=
  std_out_path ← output_path self "uninstall-out.txt";
  std_err_path ← output_path self "uninstall-error.txt";
  let command :=
    _build_command self
      ["uninstall"; "--yes"; "-r"; requirements_file_path] in
  _run_command command std_out_path std_err_path true;;
  mret tt.

(** [open(path)] is a text-mode open: [read] decodes the bytes and
    normalises the line endings. *)
Definition _read (path : string) : M string :=
  λ s, match files s !! path with
       | Some bytes => (text_of w bytes, s)
       | None => (Raise (FileNotFoundError path), s)
       end.

(** [os.path.getsize(path)]: the number of bytes *)
Definition getsize (path : string) : M nat :=
  λ s, match files s !! path with
       | Some bytes => (Return (String.length bytes), s)
       | None => (Raise (FileNotFoundError path), s)
       end.

Definition _install (self : OneshotPipCheck) : M PipCheckResult :=
  std_out_path ← output_path self "install-out.txt";
  std_err_path ← output_path self "install-error.txt";
  let command :=
    _build_command self (["install"; "-U"] ++ _packages self) in
  returncode ← _run_command command std_out_path std_err_path false;
  if negb (returncode =? 0)%Z then
    text ← _read std_err_path;
    mret {| packages := _packages self;
           result_type := INSTALL_ERROR;
           result_text := Some text;
           dependency_info := None |}
  else
    mret {| packages := _packages self;
           result_type := SUCCESS;
           result_text := None;
           dependency_info := None |}.

Definition _check (self : OneshotPipCheck) : M PipCheckResult :=
  std_out_path ← output_path self "check-out.txt";
  std_err_path ← output_path self "check-error.txt";
  let command := _build_command self ["check"] in
  returncode ← _run_command command std_out_path std_err_path false;
  if negb (returncode =? 0)%Z then
    text ← _read std_out_path;
    mret {| packages := _packages self;
           result_type := CHECK_WARNING;
           result_text := Some text;
           dependency_info := None |}
  else
    mret {| packages := _packages self;
           result_type := SUCCESS;
           result_text := None;
           dependency_info := None |}.

Definition loads_pkgs (text : string) : M (list (gmap string string)) :=
  match json_loads_pkgs w text with
  | Some v => mret v
  | None => raise JSONDecodeError
  end.

Definition datetime_now_isoformat : M string :=
  λ s, (Return (now_isoformat w (clock s)), ticked s).

(** One iteration of the second loop of [_list] *)
Definition list_body
    (outdated_pkgs : gmap (option string) (option string))
    (locals : list_locals) (pkg : gmap string string) : M list_locals :=
  let pkg_name := pkg !! "name" in
  let installed_version := pkg !! "version" in
  let latest_version :=
    (reconcile outdated_pkgs pkg_name installed_version).1 in
  let is_latest :=
    (reconcile outdated_pkgs pkg_name installed_version).2 in
  result ← _call_pypi_json_api pkg_name latest_version;
  '(bound_latest, bound_installed, latest_version_time,
    installed_version_time) ←
    lift (release_times locals result latest_version installed_version);
  current_time ← datetime_now_isoformat;
  mret {| pkg_version_date :=
            <[pkg_name :=
                pkg_info installed_version installed_version_time
                  latest_version current_time latest_version_time
                  is_latest]>
              (pkg_version_date locals);
          latest_release := bound_latest;
          installed_release := bound_installed |}.

Definition _list (self : OneshotPipCheck)
    : M (gmap (option string) (gmap string json)) :=
  std_out_path ← output_path self "list-out.txt";
  std_err_path ← output_path self "list-error.txt";
  let command := _build_command self ["list"; "--format=json"] in
  _run_command command std_out_path std_err_path false;;
  text ← _read std_out_path;
  pip_list_result ← loads_pkgs text;
  std_out_path ← output_path self "list-outdate-out.txt";
  std_err_path ← output_path self "list-outdate-error.txt";
  let command := _build_command self ["list"; "-o"; "--format=json"] in
  _run_command command std_out_path std_err_path false;;
  text ← _read std_out_path;
  pip_list_latest_result ← loads_pkgs text;
  let outdated_pkgs := collect_outdated pip_list_latest_result in
  locals ← for_each (list_body outdated_pkgs) pip_list_result
             initial_locals;
  mret (pkg_version_date locals).

Definition set_output_directory (self : OneshotPipCheck) (d : string)
    : OneshotPipCheck :=
  {| _pip_command := _pip_command self;
     _packages := _packages self;
     _tmp_path := _tmp_path self;
     _output_directory := Some d;
     _clean := _clean self |}.

(** The [if self._clean:] block of [run] *)
Definition clean_step (self : OneshotPipCheck) : M unit :=
  if _clean self then
    requirements_old_file_path ←
      output_path self "requirements-old.txt";
    _freeze self requirements_old_file_path;;
    size ← getsize requirements_old_file_path;
    if (0 <? size)%nat then _uninstall self requirements_old_file_path
    else mret tt
  else mret tt.

Definition run (self : OneshotPipCheck) : M PipCheckResult :=
  let self := set_output_directory self (mkdtemp w (_tmp_path self)) in
  clean_step self;;
  install_result ← _install self;
  dependency_info ←
    (if decide (result_type install_result ≠ INSTALL_ERROR)
     then report ← _list self; mret (Some report)
     else mret None);
  install_result ←
    (if decide (result_type install_result = SUCCESS)
     then _check self
     else mret install_result);
  mret (with_extra_attrs install_result dependency_info).

Definition check (pip_command packages : list string)
    (tmp_path : option string) (clean : bool) : M PipCheckResult :=
  run {| _pip_command := pip_command;
         _packages := packages;
         _tmp_path := tmp_path;
         _output_directory := None;
         _clean := clean |}.
End Program.

(** ** The commands the methods build *)

Definition freeze_command (self : OneshotPipCheck) : list string :=
  _build_command self ["freeze"].
Definition uninstall_command (self : OneshotPipCheck)
    (requirements_file_path : string) : list string :=
  _build_command self ["uninstall"; "--yes"; "-r"; requirements_file_path].
Definition install_command (self : OneshotPipCheck) : list string :=
  _build_command self (["install"; "-U"] ++ _packages self).
Definition check_command (self : OneshotPipCheck) : list string :=
  _build_command self ["check"].
Definition list_command (self : OneshotPipCheck) : list string :=
  _build_command self ["list"; "--format=json"].
Definition list_outdated_command (self : OneshotPipCheck) : list string :=
  _build_command self ["list"; "-o"; "--format=json"].

(** The six keys of a [pkg_info] *)
Definition pkg_info_keys : gset string :=
  {[ "installed_version"; "installed_version_time"; "latest_version";
     "current_time"; "latest_version_time"; "is_latest" ]}.

(** ** What the steps answer, as functions of what pip and the registry do *)

Definition install_result_of (w : World) (self : OneshotPipCheck)
    (c : CompletedProcess) : outcome PipCheckResult :=
  if (returncode c =? 0)%Z
  then Return {| packages := _packages self; result_type := SUCCESS;
                 result_text := None; dependency_info := None |}
  else text ← text_of w (stderr c);
       Return {| packages := _packages self; result_type := INSTALL_ERROR;
                 result_text := Some text; dependency_info := None |}.

Definition check_result_of (w : World) (self : OneshotPipCheck)
    (c : CompletedProcess) : outcome PipCheckResult :=
  if (returncode c =? 0)%Z
  then Return {| packages := _packages self; result_type := SUCCESS;
                 result_text := None; dependency_info := None |}
  else text ← text_of w (stdout c);
       Return {| packages := _packages self; result_type := CHECK_WARNING;
                 result_text := Some text; dependency_info := None |}.

(** [json.loads] of the text read back from a file that holds [bytes] *)
Definition decoded_pkgs (w : World) (bytes : string)
    : outcome (list (gmap string string)) :=
  text ← text_of w bytes;
  match json_loads_pkgs w text with
  | Some pkgs => Return pkgs
  | None => Raise JSONDecodeError
  end.

(** What [pip list --format=json] printed, decoded *)
Definition installed_packages (w : World) (self : OneshotPipCheck)
    : outcome (list (gmap string string)) :=
  decoded_pkgs w (stdout (subprocess_run w (list_command self))).

(** What [pip list -o --format=json] printed, decoded *)
Definition outdated_packages (w : World) (self : OneshotPipCheck)
    : outcome (list (gmap string string)) :=
  decoded_pkgs w (stdout (subprocess_run w (list_outdated_command self))).

(** What one registry lookup answers *)
Definition lookup_outcome (w : World) (url : string) : outcome json :=
  match urlopen w url with
  | Body text =>
      match json_loads w text with
      | Some v => Return v
      | None => Raise JSONDecodeError
      end
  | ErrorStatus _ => Return JNull
  | NoAnswer reason => Raise (URLError reason)
  | NotUTF8 => Raise UnicodeDecodeError
  end.

Definition outcome_map {A B} (f : A → B) (o : outcome A) : outcome B :=
  match o with Return a => Return (f a) | Raise e => Raise e end.

(** A dependency report without its [current_time] fields *)
Definition erase_current_time (report : gmap (option string) (gmap string json))
    : gmap (option string) (gmap string json) :=
  delete "current_time" <$> report.


Definition raises_only {A} (P : exn → Prop) (o : outcome A) : Prop :=
  ∀ e, o = Raise e → P e.

(** Two states of the locals of [_list] that differ in [current_time]
    fields at most *)
Definition locals_agree (a b : list_locals) : Prop :=
  erase_current_time (pkg_version_date a) =
    erase_current_time (pkg_version_date b) ∧
  latest_release a = latest_release b ∧
  installed_release a = installed_release b.

(** Two outcomes that raise the same exception or return related values *)
Definition outcome_rel {A} (R : A → A → Prop) (a b : outcome A) : Prop :=
  match a, b with
  | Return x, Return y => R x y
  | Raise e1, Raise e2 => e1 = e2
  | _, _ => False
  end.

(** ** A concrete world

    [pip] is [["pip"]] and the request is [["numpy"]].  Once installed,
    [pip list] shows numpy 1.0 and six 2.0, and [pip list -o] shows six
    with 3.0 as its latest version.  The registry knows numpy 1.0 (what it
    answers is the parameter [answer]) and nothing else.  The exit codes
    of [pip install] and [pip check] are parameters too. *)

(** The ASCII codec: bytes below 128 are themselves, any other byte is an
    error. *)
Definition ascii_decode (bytes : string) : option string :=
  if forallb (λ c, Nat.ltb (nat_of_ascii c) 128) (list_ascii_of_string bytes)
  then Some bytes else None.

Definition example_process (install_code check_code : Z)
    (command : list string) : CompletedProcess :=
  if decide (command = ["pip"; "install"; "-U"; "numpy"]) then
    {| returncode := install_code; stdout := "Collecting numpy";
       stderr := "No matching distribution found"; merged := "" |}
  else if decide (command = ["pip"; "check"]) then
    {| returncode := check_code;
       stdout := "numpy has requirement six<3"; stderr := "";
       merged := "" |}
  else if decide (command = ["pip"; "list"; "--format=json"]) then
    {| returncode := 0; stdout := "<installed>"; stderr := ""; merged := "" |}
  else if decide (command = ["pip"; "list"; "-o"; "--format=json"]) then
    {| returncode := 0; stdout := "<outdated>"; stderr := ""; merged := "" |}
  else if decide (command = ["pip"; "freeze"]) then
    {| returncode := 0; stdout := "six==2.0"; stderr := ""; merged := "" |}
  else
    {| returncode := 1; stdout := ""; stderr := "not uninstalled";
       merged := "" |}.

Definition example_installed : list (gmap string string) :=
  [ {[ "name" := "numpy"; "version" := "1.0" ]};
    {[ "name" := "six"; "version" := "2.0" ]} ].

Definition example_outdated : list (gmap string string) :=
  [ {[ "name" := "six"; "version" := "2.0"; "latest_version" := "3.0" ]} ].

Definition example_world (install_code check_code : Z) (answer : response)
    (now : nat → string) : World :=
  {| subprocess_run := example_process install_code check_code;
     side_effect := λ _ others, others;
     locale_decode := ascii_decode;
     urlopen := λ url,
       if decide (url = "https://pypi.org/pypi/numpy/1.0/json")
       then answer else ErrorStatus 404;
     json_loads := λ text,
       if decide (text = "<numpy>") then
         Some (JObj [("releases",
                      JObj [("1.0",
                             JArr [JObj [("upload_time",
                                          JStr "2018-06-06T15:08:26")]])])])
       else if decide (text = "{}") then Some (JObj [])
       else None;
     json_loads_pkgs := λ text,
       if decide (text = "<installed>") then Some example_installed
       else if decide (text = "<outdated>") then Some example_outdated
       else None;
     now_isoformat := now;
     mkdtemp := λ _, "/tmp/tmpk3x" |}.

Definition example_self (clean : bool) : OneshotPipCheck :=
  {| _pip_command := ["pip"];
     _packages := ["numpy"];
     _tmp_path := None;
     _output_directory := Some "/tmp/tmpk3x";
     _clean := clean |}.

Definition empty_state : state :=
  {| files := ∅; elsewhere := ∅; commands := []; requests := [];
     clock := 0 |}.

(** The same world, with a registry that knows numpy 1.0 and answers the
    lookup of six 3.0 with the document [{}]. *)
Definition stale_world : World :=
  {| subprocess_run := example_process 0 0;
     side_effect := λ _ others, others;
     locale_decode := ascii_decode;
     urlopen := λ url,
       if decide (url = "https://pypi.org/pypi/numpy/1.0/json")
       then Body "<numpy>"
       else if decide (url = "https://pypi.org/pypi/six/3.0/json")
       then Body "{}"
       else ErrorStatus 404;
     json_loads := json_loads (example_world 0 0 NotUTF8 (λ _, ""));
     json_loads_pkgs := json_loads_pkgs (example_world 0 0 NotUTF8 (λ _, ""));
     now_isoformat := λ _, "";
     mkdtemp := λ _, "/tmp/tmpk3x" |}.

(** A field of the entry of a package in the report that a run of the
    enrichment step answers, if there is one *)
Definition reported_field
    (o : outcome (gmap (option string) (gmap string json)))
    (pkg_name : option string) (field : string) : option json :=
  match o with
  | Return report => info ← report !! pkg_name; info !! field
  | Raise _ => None
  end.

(** Whether an outcome is a returned value *)
Definition returns {A} (o : outcome A) : bool :=
  match o with Return _ => true | Raise _ => false end.

(** Whether a run of the enrichment step answered a report with an entry
    for the package *)
Definition has_entry (o : outcome (gmap (option string) (gmap string json)))
    (pkg_name : option string) : bool :=
  match o with
  | Return report => bool_decide (is_Some (report !! pkg_name))
  | Raise _ => false
  end.

(** ** What a whole run does to the outside *)

(** The commands of the [if self._clean:] block, in the order they run *)
Definition clean_commands (w : World) (self : OneshotPipCheck)
    : list (list string) :=
  if _clean self then
    if (0 <? String.length
               (stdout (subprocess_run w (freeze_command self))))%nat
    then [freeze_command self;
          uninstall_command self
            (os_path_join (mkdtemp w (_tmp_path self))
               "requirements-old.txt")]
    else [freeze_command self]
  else [].

(** The commands of the enrichment and check steps *)
Definition report_commands (self : OneshotPipCheck) : list (list string) :=
  [list_command self; list_outdated_command self; check_command self].

(** The URL that [_list] fetches for an installed package: the one of its
    latest version *)
Definition lookup_url (outdated_pkgs : gmap (option string) (option string))
    (pkg : gmap string string) : string :=
  pypi_pkg_url (pkg !! "name")
    (reconcile outdated_pkgs (pkg !! "name") (pkg !! "version")).1.

(** ** Registry documents of the expected shape *)

Definition is_object (v : json) : bool :=
  match v with JObj _ => true | _ => false end.

(** A sequence of file-upload records *)
Definition is_file_list (release : json) : bool :=
  match release with
  | JArr files => forallb is_object files
  | _ => false
  end.

(** An object whose ['releases'] is an object that maps versions to
    sequences of file-upload records *)
Definition well_formed_document (doc : json) : bool :=
  match doc with
  | JObj kvs =>
      match assoc "releases" kvs with
      | Some (JObj releases) =>
          forallb (λ kv : string * json, is_file_list kv.2) releases
      | _ => false
      end
  | _ => false
  end.

(** The ['upload_time'] of the first file of a version, [None] when the
    version is not listed, has no file, or its first file has no such
    field *)
Definition first_upload_time (releases : list (string * json))
    (version : option string) : json :=
  match version with
  | Some v =>
      match assoc v releases with
      | Some (JArr (JObj fields :: _)) =>
          default JNull (assoc "upload_time" fields)
      | _ => JNull
      end
  | None => JNull
  end.

(** A registry answer that the enrichment step can use: an HTTP error
    status, the document [null], or a document of the expected shape *)
Definition usable_answer (w : World) (url : string) : Prop :=
  match urlopen w url with
  | ErrorStatus _ => True
  | Body text =>
      match json_loads w text with
      | Some doc => doc = JNull ∨ well_formed_document doc = true
      | None => False
      end
  | NoAnswer _ | NotUTF8 => False
  end.

(** A world where every command exits with zero and prints one frozen
    requirement; the registry is never reached. *)
Definition frozen_world : World :=
  {| subprocess_run :=
       λ _, {| returncode := 0; stdout := "six==2.0"; stderr := "";
               merged := "" |};
     side_effect := λ _ others, others;
     locale_decode := ascii_decode;
     urlopen := λ _, NotUTF8;
     json_loads := λ _, None;
     json_loads_pkgs := λ _, None;
     now_isoformat := λ _, "";
     mkdtemp := λ _, "/tmp/tmpk3x" |}.

(** ** Other listings

    A world where [pip list] and [pip list -o] print the given packages,
    every command exits with zero and the registry knows nothing. *)

Definition listing_world (installed outdated : list (gmap string string))
    : World :=
  {| subprocess_run := example_process 0 0;
     side_effect := λ _ others, others;
     locale_decode := ascii_decode;
     urlopen := λ _, ErrorStatus 404;
     json_loads := λ _, None;
     json_loads_pkgs := λ text,
       if decide (text = "<installed>") then Some installed
       else if decide (text = "<outdated>") then Some outdated
       else None;
     now_isoformat := λ _, "";
     mkdtemp := λ _, "/tmp/tmpk3x" |}.

(** What [pip list -o] prints under Python 2: every installed package,
    outdated or not *)
Definition listed_by_py2 : list (gmap string string) :=
  [ {[ "name" := "numpy"; "version" := "1.0"; "latest_version" := "1.1" ]};
    {[ "name" := "six"; "version" := "2.0"; "latest_version" := "2.0" ]} ].

(** A listing that names six twice *)
Definition installed_twice : list (gmap string string) :=
  [ {[ "name" := "six"; "version" := "1.0" ]};
    {[ "name" := "numpy"; "version" := "1.0" ]};
    {[ "name" := "six"; "version" := "2.0" ]} ].

(** ** Output that does not read back as it was written

    The first world again, with a registry that knows numpy 1.0, where
    [pip install] writes [noise] on its standard error and [pip check]
    writes it on its standard output. *)

Definition noisy_process (install_code check_code : Z) (noise : string)
    (command : list string) : CompletedProcess :=
  if decide (command = ["pip"; "install"; "-U"; "numpy"]) then
    {| returncode := install_code; stdout := ""; stderr := noise;
       merged := "" |}
  else if decide (command = ["pip"; "check"]) then
    {| returncode := check_code; stdout := noise; stderr := "";
       merged := "" |}
  else example_process 0 0 command.

Definition noisy_world (install_code check_code : Z) (noise : string)
    : World :=
  {| subprocess_run := noisy_process install_code check_code noise;
     side_effect := λ _ others, others;
     locale_decode := ascii_decode;
     urlopen := urlopen (example_world 0 0 (Body "<numpy>") (λ _, ""));
     json_loads := json_loads (example_world 0 0 NotUTF8 (λ _, ""));
     json_loads_pkgs := json_loads_pkgs (example_world 0 0 NotUTF8 (λ _, ""));
     now_isoformat := λ _, "";
     mkdtemp := λ _, "/tmp/tmpk3x" |}.

(** Two lines, the first ended as on Windows *)
Definition two_lines : string :=
  "ERROR" ++ String CR (String LF "numpy").

(** [b'caf\xe9'], which is not ASCII (nor UTF-8) *)
Definition not_ascii : string :=
  "caf" ++ String "233"%char "".

(** * Basic facts *)

Lemma returns_true {A} (r : outcome A * state) :
  returns r.1 = true → ∃ a s', r = (Return a, s').
Proof. destruct r as [[a|e] s']; [by exists a, s'|done]. Qed.

Lemma has_entry_true
    (r : outcome (gmap (option string) (gmap string json)) * state)
    pkg_name :
  has_entry r.1 pkg_name = true →
  ∃ report s' info, r = (Return report, s') ∧ report !! pkg_name = Some info.
Proof.
  destruct r as [[report|e] s']; simpl; [|done].
  intros [info Hinfo]%bool_decide_eq_true. by exists report, s', info.
Qed.

Lemma append_inv_head (a b c : string) : (a ++ b = a ++ c)%string → b = c.
Proof. induction a as [|ch a IH]; simpl; [done|]. intros [=]. auto. Qed.

Lemma os_path_join_inj (d a b : string) :
  String.prefix "/" a = false → String.prefix "/" b = false →
  os_path_join d a = os_path_join d b → a = b.
Proof.
  unfold os_path_join. intros -> ->.
  destruct (_ || _); intros H.
  - by apply append_inv_head in H.
  - apply append_inv_head in H. by apply (append_inv_head "/") in H.
Qed.

Lemma bind_unfold {A B} (m : M A) (k : A → M B) (s : state) :
  (m ≫= k) s = match m s with
               | (Return a, s') => k a s'
               | (Raise e, s') => (Raise e, s')
               end.
Proof. reflexivity. Qed.

Lemma ret_eq {A} (a : A) (s : state) : @mret M _ A a s = (Return a, s).
Proof. reflexivity. Qed.

Lemma output_path_Some self d name s :
  _output_directory self = Some d →
  output_path self name s = (Return (os_path_join d name), s).
Proof. unfold output_path. by intros ->. Qed.

Lemma run_command_eq w command out err flag s :
  _run_command w command out err flag s =
  (if negb (returncode (subprocess_run w command) =? 0)%Z && flag
   then Raise (PipError command (returncode (subprocess_run w command)) err)
   else Return (returncode (subprocess_run w command)),
   redirected w command out err s).
Proof. unfold _run_command. by destruct (_ && _). Qed.

Lemma files_redirected w command out err s :
  out ≠ err →
  files (redirected w command out err s) =
  <[err := stderr (subprocess_run w command)]>
    (<[out := stdout (subprocess_run w command)]> (files s)).
Proof. intros Hne. unfold redirected; simpl. by rewrite decide_False. Qed.

Lemma lookup_redirected_stderr w command out err s :
  out ≠ err →
  files (redirected w command out err s) !! err
  = Some (stderr (subprocess_run w command)).
Proof. intros Hne. by rewrite files_redirected, lookup_insert_eq. Qed.

Lemma lookup_redirected_stdout w command out err s :
  out ≠ err →
  files (redirected w command out err s) !! out
  = Some (stdout (subprocess_run w command)).
Proof.
  intros Hne. rewrite files_redirected, lookup_insert_ne by done.
  by rewrite lookup_insert_eq.
Qed.

Lemma read_redirected_stderr w command out err s :
  out ≠ err →
  _read w err (redirected w command out err s) =
  (text_of w (stderr (subprocess_run w command)),
   redirected w command out err s).
Proof. intros Hne. unfold _read. by rewrite lookup_redirected_stderr. Qed.

Lemma read_redirected_stdout w command out err s :
  out ≠ err →
  _read w out (redirected w command out err s) =
  (text_of w (stdout (subprocess_run w command)),
   redirected w command out err s).
Proof. intros Hne. unfold _read. by rewrite lookup_redirected_stdout. Qed.

Lemma os_path_join_ne (d a b : string) :
  String.prefix "/" a = false → String.prefix "/" b = false →
  a ≠ b → os_path_join d a ≠ os_path_join d b.
Proof. intros Ha Hb Hne Heq. by apply os_path_join_inj in Heq. Qed.

Lemma install_eq w self d s :
  _output_directory self = Some d →
  _install w self s =
  (install_result_of w self (subprocess_run w (install_command self)),
   redirected w (install_command self)
     (os_path_join d "install-out.txt") (os_path_join d "install-error.txt")
     s).
Proof.
  intros Hd. unfold _install.
  do 2 (rewrite bind_unfold, (output_path_Some _ d) by done; cbv beta iota).
  rewrite bind_unfold, run_command_eq, andb_false_r.
  fold (install_command self). unfold install_result_of.
  destruct (returncode _ =? 0)%Z; simpl; [done|].
  rewrite bind_unfold, read_redirected_stderr by by apply os_path_join_ne.
  by destruct (text_of w _).
Qed.

Lemma check_eq w self d s :
  _output_directory self = Some d →
  _check w self s =
  (check_result_of w self (subprocess_run w (check_command self)),
   redirected w (check_command self)
     (os_path_join d "check-out.txt") (os_path_join d "check-error.txt") s).
Proof.
  intros Hd. unfold _check.
  do 2 (rewrite bind_unfold, (output_path_Some _ d) by done; cbv beta iota).
  rewrite bind_unfold, run_command_eq, andb_false_r.
  fold (check_command self). unfold check_result_of.
  destruct (returncode _ =? 0)%Z; simpl; [done|].
  rewrite bind_unfold, read_redirected_stdout by by apply os_path_join_ne.
  by destruct (text_of w _).
Qed.

Lemma clean_step_eq w self d s :
  _output_directory self = Some d →
  clean_step w self s =
  if _clean self then
    let req := os_path_join d "requirements-old.txt" in
    let err := os_path_join d "freeze-error.txt" in
    let s1 := redirected w (freeze_command self) req err s in
    let freeze := subprocess_run w (freeze_command self) in
    if negb (returncode freeze =? 0)%Z then
      (Raise (PipError (freeze_command self) (returncode freeze) err), s1)
    else if (0 <? String.length (stdout freeze))%nat then
      let uerr := os_path_join d "uninstall-error.txt" in
      let s2 := redirected w (uninstall_command self req)
                  (os_path_join d "uninstall-out.txt") uerr s1 in
      let uninstall := subprocess_run w (uninstall_command self req) in
      if negb (returncode uninstall =? 0)%Z then
        (Raise (PipError (uninstall_command self req)
                  (returncode uninstall) uerr), s2)
      else (Return (), s2)
    else (Return (), s1)
  else (Return (), s).
Proof.
  intros Hd. unfold clean_step. destruct (_clean self); [|done].
  rewrite bind_unfold, (output_path_Some _ d) by done; cbv beta iota zeta.
  rewrite bind_unfold. unfold _freeze.
  rewrite bind_unfold, (output_path_Some _ d) by done; cbv beta iota zeta.
  rewrite bind_unfold, run_command_eq, andb_true_r.
  fold (freeze_command self).
  destruct (negb _); [done|]. cbv beta iota.
  rewrite ret_eq, bind_unfold. unfold getsize.
  rewrite lookup_redirected_stdout by by apply os_path_join_ne.
  destruct (0 <? _)%nat; [|done].
  unfold _uninstall.
  do 2 (rewrite bind_unfold, (output_path_Some _ d) by done; cbv beta iota zeta).
  rewrite bind_unfold, run_command_eq, andb_true_r.
  fold (uninstall_command self (os_path_join d "requirements-old.txt")).
  by destruct (negb _).
Qed.

Lemma run_eq w self s :
  let self' := set_output_directory self (mkdtemp w (_tmp_path self)) in
  let d := mkdtemp w (_tmp_path self) in
  run w self s =
  match clean_step w self' s with
  | (Raise e, s1) => (Raise e, s1)
  | (Return _, s1) =>
      let installed := subprocess_run w (install_command self) in
      let s2 := redirected w (install_command self)
                  (os_path_join d "install-out.txt")
                  (os_path_join d "install-error.txt") s1 in
      if (returncode installed =? 0)%Z then
        match _list w self' s2 with
        | (Raise e, s3) => (Raise e, s3)
        | (Return report, s3) =>
            (outcome_map (λ r, with_extra_attrs r (Some report))
               (check_result_of w self
                  (subprocess_run w (check_command self))),
             redirected w (check_command self)
               (os_path_join d "check-out.txt")
               (os_path_join d "check-error.txt") s3)
        end
      else
        (outcome_map (λ r, with_extra_attrs r None)
           (install_result_of w self installed),
         s2)
  end.
Proof.
  intros self' d. unfold run. fold self'.
  rewrite bind_unfold. destruct (clean_step w self' s) as [[[]|e] s1]; [|done].
  rewrite bind_unfold, (install_eq w self' d) by done.
  cbv beta iota zeta.
  change (install_command self') with (install_command self).
  change (install_result_of w self' ?c) with (install_result_of w self c).
  unfold install_result_of.
  destruct (returncode _ =? 0)%Z eqn:Hrc.
  - simpl result_type. rewrite bind_unfold. rewrite decide_True by done.
    rewrite bind_unfold.
    destruct (_list w self' _) as [[report|e] s3]; [|done].
    rewrite ret_eq; cbv beta iota. rewrite bind_unfold, decide_True by done.
    rewrite (check_eq w self' d) by done.
    change (check_command self') with (check_command self).
    change (check_result_of w self' ?c) with (check_result_of w self c).
    by destruct (check_result_of w self _).
  - by destruct (text_of w _) as [text|e].
Qed.

(** ** The enrichment step *)

Lemma call_pypi_json_api_eq w pkg_name pkg_version s :
  _call_pypi_json_api w pkg_name pkg_version s =
  (lookup_outcome w (pypi_pkg_url pkg_name pkg_version),
   requested (pypi_pkg_url pkg_name pkg_version) s).
Proof.
  unfold _call_pypi_json_api, try_except, lookup_outcome.
  rewrite bind_unfold. unfold urlopen_read_decode, loads.
  destruct (urlopen w _); [|done..].
  by destruct (json_loads w text).
Qed.

Lemma list_body_eq w outdated_pkgs locals pkg s :
  let pkg_name := pkg !! "name" in
  let installed_version := pkg !! "version" in
  let latest_version :=
    (reconcile outdated_pkgs pkg_name installed_version).1 in
  let is_latest := (reconcile outdated_pkgs pkg_name installed_version).2 in
  let url := pypi_pkg_url pkg_name latest_version in
  list_body w outdated_pkgs locals pkg s =
  match lookup_outcome w url with
  | Raise e => (Raise e, requested url s)
  | Return result =>
      match release_times locals result latest_version installed_version with
      | Raise e => (Raise e, requested url s)
      | Return (bound_latest, bound_installed, latest_version_time,
                installed_version_time) =>
          (Return
             {| pkg_version_date :=
                  <[pkg_name :=
                      pkg_info installed_version installed_version_time
                        latest_version
                        (now_isoformat w (clock s))
                        latest_version_time is_latest]>
                    (pkg_version_date locals);
                latest_release := bound_latest;
                installed_release := bound_installed |},
           ticked (requested url s))
      end
  end.
Proof.
  intros. unfold list_body. rewrite bind_unfold, call_pypi_json_api_eq.
  fold pkg_name installed_version latest_version is_latest url.
  destruct (lookup_outcome w url) as [result|e]; [|done].
  rewrite bind_unfold. unfold lift.
  by destruct (release_times _ _ _ _) as [[[[??]?]?]|].
Qed.

Lemma list_eq w self d s :
  _output_directory self = Some d →
  let s1 := redirected w (list_command self)
              (os_path_join d "list-out.txt")
              (os_path_join d "list-error.txt") s in
  let s2 := redirected w (list_outdated_command self)
              (os_path_join d "list-outdate-out.txt")
              (os_path_join d "list-outdate-error.txt") s1 in
  _list w self s =
  match installed_packages w self with
  | Raise e => (Raise e, s1)
  | Return pip_list_result =>
      match outdated_packages w self with
      | Raise e => (Raise e, s2)
      | Return pip_list_latest_result =>
          match for_each
                  (list_body w (collect_outdated pip_list_latest_result))
                  pip_list_result initial_locals s2 with
          | (Return locals, s3) => (Return (pkg_version_date locals), s3)
          | (Raise e, s3) => (Raise e, s3)
          end
      end
  end.
Proof.
  intros Hd s1 s2. unfold _list.
  do 2 (rewrite bind_unfold, (output_path_Some _ d) by done; cbv beta iota zeta).
  rewrite bind_unfold, run_command_eq, andb_false_r. cbv beta iota.
  fold (list_command self). fold s1.
  rewrite bind_unfold. unfold s1 at 1.
  rewrite read_redirected_stdout by by apply os_path_join_ne.
  fold s1. unfold installed_packages, decoded_pkgs.
  destruct (text_of w (stdout (subprocess_run w (list_command self))))
    as [text|e]; simpl; [|done].
  rewrite bind_unfold. unfold loads_pkgs.
  destruct (json_loads_pkgs w text) as [pip_list_result|]; [|done].
  rewrite ret_eq. cbv beta iota.
  do 2 (rewrite bind_unfold, (output_path_Some _ d) by done; cbv beta iota zeta).
  rewrite bind_unfold, run_command_eq, andb_false_r. cbv beta iota.
  fold (list_outdated_command self). fold s2.
  rewrite bind_unfold. unfold s2 at 1.
  rewrite read_redirected_stdout by by apply os_path_join_ne.
  fold s2. unfold outdated_packages, decoded_pkgs.
  destruct (text_of w (stdout (subprocess_run w (list_outdated_command self))))
    as [text'|e]; simpl; [|done].
  rewrite bind_unfold.
  destruct (json_loads_pkgs w text') as [pip_list_latest_result|]; [|done].
  rewrite ret_eq. cbv beta iota. rewrite bind_unfold.
  by destruct (for_each _ _ _ _) as [[locals|e] s3].
Qed.

(** ** Which exceptions the enrichment step raises *)


Lemma raises_only_Raise {A} (P : exn → Prop) e :
  P e → raises_only (A:=A) P (Raise e).
Proof. by intros ? ? [= <-]. Qed.














(** * The command runner *)

(** C7.  Whatever the command, with two distinct destination files: when
    the fatal flag is set and the command exits non-zero, [_run_command]
    raises a [PipError] carrying the command, the exit code and the path of
    the standard-error file; when the flag is set and the exit code is
    zero, or when the flag is not set, it returns the exit code; nothing
    else is ever returned; and in every case the two streams end up in the
    two files named by the caller, no other file being touched. *)
Theorem run_command_contract w command stdout_path stderr_path
    raise_on_failure s :
  stdout_path ≠ stderr_path →
  let completed := subprocess_run w command in
  let r := _run_command w command stdout_path stderr_path raise_on_failure s in
  (raise_on_failure = true → returncode completed ≠ 0%Z →
   r.1 = Raise (PipError command (returncode completed) stderr_path)) ∧
  (raise_on_failure = true → returncode completed = 0%Z →
   r.1 = Return 0%Z) ∧
  (raise_on_failure = false → r.1 = Return (returncode completed)) ∧
  files r.2 !! stdout_path = Some (stdout completed) ∧
  files r.2 !! stderr_path = Some (stderr completed) ∧
  (∀ path, path ≠ stdout_path → path ≠ stderr_path →
           files r.2 !! path = files s !! path).
Proof.
  intros Hne completed r. subst r. rewrite run_command_eq. fold completed.
  cbn [fst snd]. repeat split.
  - intros -> Hrc%Z.eqb_neq. by rewrite Hrc.
  - intros -> Hrc. by rewrite Hrc.
  - intros ->. by rewrite andb_false_r.
  - by apply lookup_redirected_stdout.
  - by apply lookup_redirected_stderr.
  - intros path H1 H2. rewrite files_redirected by done.
    by rewrite !lookup_insert_ne.
Qed.

Lemma run_command_contract_witness :
  "check-out.txt" ≠ "check-error.txt" ∧
  (_run_command (example_world 0 1 NotUTF8 (λ _, "")) ["pip"; "check"]
     "check-out.txt" "check-error.txt" true empty_state).1
  = Raise (PipError ["pip"; "check"] 1 "check-error.txt").
Proof.
  split; [done|].
  refine (proj1 (run_command_contract (example_world 0 1 NotUTF8 (λ _, ""))
                   ["pip"; "check"] "check-out.txt" "check-error.txt" true
                   empty_state _) _ _); done.
Defined.

(** * The run *)

(** C1, as the code has it.  When the clean step (if any) has gone through
    and [pip install] exits non-zero, the install command is the last
    external command of the run: no registry lookup is made, the clock is
    not read, neither [pip list] nor [pip check] runs.  The standard error
    of the install command is then read back as text.  When its bytes
    decode in the locale's encoding, the run returns a result of kind
    [INSTALL_ERROR] for the requested packages, with no dependency report,
    whose text is the decoded standard error with every line ending read
    as a line feed; when they do not, the run raises
    [UnicodeDecodeError]. *)
Theorem install_failure_ends_run w self s s1 :
  let self' := set_output_directory self (mkdtemp w (_tmp_path self)) in
  let installed := subprocess_run w (install_command self) in
  clean_step w self' s = (Return (), s1) →
  returncode installed ≠ 0%Z →
  ∃ s2,
    run w self s =
      (match locale_decode w (stderr installed) with
       | Some text =>
           Return {| packages := _packages self;
                     result_type := INSTALL_ERROR;
                     result_text := Some (universal_newlines text);
                     dependency_info := None |}
       | None => Raise UnicodeDecodeError
       end, s2) ∧
    commands s2 = (commands s1 ++ [install_command self])%list ∧
    requests s2 = requests s1 ∧
    clock s2 = clock s1.
Proof.
  intros self' installed Hclean Hrc%Z.eqb_neq.
  eexists. rewrite run_eq. fold self'. rewrite Hclean. cbv zeta.
  fold installed. rewrite Hrc. unfold install_result_of, text_of.
  fold installed. rewrite Hrc.
  by destruct (locale_decode w (stderr installed)).
Qed.

Lemma install_failure_ends_run_witness :
  ∃ s2,
    run (example_world 1 0 NotUTF8 (λ _, "")) (example_self false)
        empty_state =
      (Return {| packages := ["numpy"];
                 result_type := INSTALL_ERROR;
                 result_text := Some "No matching distribution found";
                 dependency_info := None |}, s2) ∧
    commands s2 = [["pip"; "install"; "-U"; "numpy"]] ∧
    requests s2 = [] ∧
    clock s2 = 0.
Proof.
  exact (install_failure_ends_run (example_world 1 0 NotUTF8 (λ _, ""))
           (example_self false) empty_state empty_state
           eq_refl ltac:(done)).
Defined.

(** C1 fails as stated: the text of the result is not always the captured
    standard error.  When [pip install] fails with the two lines
    [ERROR] and [numpy] separated by a carriage return and a line feed,
    the text of the result has a line feed alone between them; when it
    fails with the byte 233 on its standard error and the locale is ASCII,
    the run raises [UnicodeDecodeError] and there is no result. *)
Lemma install_text_is_not_the_captured_stderr :
  stderr (subprocess_run (noisy_world 1 0 two_lines) ["pip"; "install"; "-U"; "numpy"])
  = String "E" (String "R" (String "R" (String "O" (String "R"
      (String CR (String LF "numpy")))))) ∧
  (run (noisy_world 1 0 two_lines) (example_self false) empty_state).1
  = Return {| packages := ["numpy"];
              result_type := INSTALL_ERROR;
              result_text :=
                Some (String "E" (String "R" (String "R" (String "O"
                        (String "R" (String LF "numpy"))))));
              dependency_info := None |} ∧
  (run (noisy_world 1 0 not_ascii) (example_self false) empty_state).1
  = Raise UnicodeDecodeError.
Proof. split; [|split]; vm_compute; reflexivity. Qed.

(** C2, as the code has it.  When the clean step (if any) has gone
    through, [pip install] exits with zero and the enrichment step returns
    a report, the outcome of the run is decided by [pip check] alone.  A
    zero exit gives [SUCCESS] without text.  A non-zero exit makes the run
    read the standard output of the check command (not its standard error)
    back as text: when its bytes decode in the locale's encoding, the
    result is a [CHECK_WARNING] whose text is the decoded standard output
    with every line ending read as a line feed; when they do not, the run
    raises [UnicodeDecodeError].  A result carries the report. *)
Theorem check_exit_decides_kind w self s s1 report s3 :
  let self' := set_output_directory self (mkdtemp w (_tmp_path self)) in
  let checked := subprocess_run w (check_command self) in
  clean_step w self' s = (Return (), s1) →
  returncode (subprocess_run w (install_command self)) = 0%Z →
  _list w self' (_install w self' s1).2 = (Return report, s3) →
  ∃ s4,
    run w self s =
      (if (returncode checked =? 0)%Z then
         Return {| packages := _packages self;
                   result_type := SUCCESS;
                   result_text := None;
                   dependency_info := Some report |}
       else
         match locale_decode w (stdout checked) with
         | Some text =>
             Return {| packages := _packages self;
                       result_type := CHECK_WARNING;
                       result_text := Some (universal_newlines text);
                       dependency_info := Some report |}
         | None => Raise UnicodeDecodeError
         end, s4).
Proof.
  intros self' checked Hclean Hrc Hlist.
  eexists. rewrite run_eq. fold self'. rewrite Hclean. cbv zeta.
  rewrite Hrc. simpl Z.eqb. cbv iota.
  rewrite (install_eq w self' (mkdtemp w (_tmp_path self))) in Hlist by done.
  simpl snd in Hlist. change (install_command self') with
    (install_command self) in Hlist.
  rewrite Hlist. unfold check_result_of, text_of. fold checked.
  destruct (returncode checked =? 0)%Z; [done|].
  by destruct (locale_decode w (stdout checked)).
Qed.

Lemma check_exit_decides_kind_witness :
  ∃ report s4,
    run (example_world 0 1 (Body "<numpy>") (λ _, "")) (example_self false)
        empty_state =
      (Return {| packages := ["numpy"];
                 result_type := CHECK_WARNING;
                 result_text := Some "numpy has requirement six<3";
                 dependency_info := Some report |}, s4).
Proof.
  destruct (returns_true
              (_list (example_world 0 1 (Body "<numpy>") (λ _, ""))
                 (set_output_directory (example_self false) "/tmp/tmpk3x")
                 (_install (example_world 0 1 (Body "<numpy>") (λ _, ""))
                    (set_output_directory (example_self false) "/tmp/tmpk3x")
                    empty_state).2))
    as (report & s3 & Hlist); [vm_compute; reflexivity|].
  exists report.
  exact (check_exit_decides_kind
           (example_world 0 1 (Body "<numpy>") (λ _, ""))
           (example_self false) empty_state empty_state report s3
           eq_refl eq_refl Hlist).
Defined.

(** C2 fails as stated: the text of a [CHECK_WARNING] is not always the
    captured standard output.  When [pip check] exits non-zero after
    printing the two lines [ERROR] and [numpy] separated by a carriage
    return and a line feed, the text of the result has a line feed alone
    between them; when it prints the byte 233 and the locale is ASCII, the
    run raises [UnicodeDecodeError] and there is no result. *)
Lemma check_text_is_not_the_captured_stdout :
  stdout (subprocess_run (noisy_world 0 1 two_lines) ["pip"; "check"])
  = String "E" (String "R" (String "R" (String "O" (String "R"
      (String CR (String LF "numpy")))))) ∧
  outcome_map (λ result, (result_type result, result_text result))
    (run (noisy_world 0 1 two_lines) (example_self false) empty_state).1
  = Return (CHECK_WARNING,
            Some (String "E" (String "R" (String "R" (String "O"
                    (String "R" (String LF "numpy"))))))) ∧
  (run (noisy_world 0 1 not_ascii) (example_self false) empty_state).1
  = Raise UnicodeDecodeError.
Proof. split; [|split]; vm_compute; reflexivity. Qed.

(** C3.  Whenever the run returns a result, the result has a dependency
    report exactly when its kind is not [INSTALL_ERROR], and a text exactly
    when its kind is not [SUCCESS]. *)
Theorem result_invariants w self s result s' :
  run w self s = (Return result, s') →
  (is_Some (dependency_info result) ↔ result_type result ≠ INSTALL_ERROR) ∧
  (is_Some (result_text result) ↔ result_type result ≠ SUCCESS).
Proof.
  rewrite run_eq. cbv zeta.
  destruct (clean_step _ _ _) as [[[]|e] s1]; [|done].
  unfold install_result_of, check_result_of.
  destruct (returncode (subprocess_run w (install_command self)) =? 0)%Z.
  - destruct (_list _ _ _) as [[report|e] s3]; [|done].
    destruct (returncode (subprocess_run w (check_command self)) =? 0)%Z;
      [|destruct (text_of w _) as [text|e]; [|done]];
      intros [= <- _]; simpl; split; split;
      first [done | by intros [? [=]] | by eexists].
  - destruct (text_of w _) as [text|e]; [|done].
    intros [= <- _]; simpl; split; split;
      first [done | by intros [? [=]] | by eexists].
Qed.

Lemma result_invariants_witness :
  ∃ result s',
    run (example_world 0 1 (Body "<numpy>") (λ _, "")) (example_self false)
        empty_state = (Return result, s') ∧
    (is_Some (dependency_info result) ↔ result_type result ≠ INSTALL_ERROR) ∧
    (is_Some (result_text result) ↔ result_type result ≠ SUCCESS).
Proof.
  destruct (returns_true
              (run (example_world 0 1 (Body "<numpy>") (λ _, ""))
                 (example_self false) empty_state))
    as (result & s' & Hrun); [vm_compute; reflexivity|].
  exists result, s'. split; [exact Hrun|].
  exact (result_invariants _ _ _ _ _ Hrun).
Defined.

Lemma length_zero_iff_empty (text : string) :
  (0 <? String.length text)%nat = false ↔ text = "".
Proof. destruct text; simpl; split; done. Qed.









(** * The dependency report *)

Lemma dom_pkg_info installed_version installed_version_time latest_version
    current_time latest_version_time is_latest :
  dom (pkg_info installed_version installed_version_time latest_version
         current_time latest_version_time is_latest) = pkg_info_keys.
Proof.
  unfold pkg_info, pkg_info_keys.
  rewrite !dom_insert_L, dom_singleton_L. set_solver.
Qed.

Lemma of_str_inj (a b : option string) : of_str a = of_str b → a = b.
Proof. destruct a, b; simpl; congruence. Qed.

Lemma reconcile_is_latest outdated_pkgs pkg_name installed_version :
  (reconcile outdated_pkgs pkg_name installed_version).2 = true ↔
  (reconcile outdated_pkgs pkg_name installed_version).1 = installed_version.
Proof.
  unfold reconcile. destruct (outdated_pkgs !! pkg_name) as [latest|]; simpl.
  - destruct (decide (latest ≠ installed_version)) as [Hne|Heq]; [done|].
    split; [|done]. intros _. by destruct (decide (latest = installed_version)).
  - done.
Qed.

(** The names of a package list: what [pkg.get('name')] answers *)
Lemma collect_outdated_lookup_None outdated name :
  collect_outdated outdated !! name = None ↔
  name ∉ (λ pkg : gmap string string, pkg !! "name") <$> outdated.
Proof.
  unfold collect_outdated.
  assert (∀ acc : gmap (option string) (option string),
    foldl (λ outdated_pkgs (pkg : gmap string string),
             <[pkg !! "name" := pkg !! "latest_version"]> outdated_pkgs)
          acc outdated !! name = None ↔
    acc !! name = None ∧
    name ∉ (λ pkg : gmap string string, pkg !! "name") <$> outdated) as H.
  { induction outdated as [|pkg outdated IH]; intros acc; simpl.
    - split; [|by intros [? _]]. intros ?. split; [done|]. by intros ?%elem_of_nil.
    - rewrite IH, not_elem_of_cons, lookup_insert_None. naive_solver. }
  rewrite H, lookup_empty. naive_solver.
Qed.

Lemma foldl_outdated_other (xs : list (gmap string string)) name :
  name ∉ (λ pkg : gmap string string, pkg !! "name") <$> xs →
  ∀ acc : gmap (option string) (option string),
    foldl (λ outdated_pkgs (pkg : gmap string string),
             <[pkg !! "name" := pkg !! "latest_version"]> outdated_pkgs)
          acc xs !! name = acc !! name.
Proof.
  induction xs as [|pkg xs IH]; simpl; [done|].
  intros [Hne Hrest]%not_elem_of_cons acc.
  rewrite IH by done. by rewrite lookup_insert_ne.
Qed.

(** What the second loop of [_list] leaves in [pkg_version_date]: one
    entry for each name met, made by [pkg_info] from a package of that
    name and from the reconciliation with the outdated packages. *)
Lemma for_each_list_body_entries w outdated_pkgs xs :
  ∀ locals s r s',
    for_each (list_body w outdated_pkgs) xs locals s = (Return r, s') →
    dom (pkg_version_date r) =
      dom (pkg_version_date locals) ∪
      list_to_set ((λ pkg : gmap string string, pkg !! "name") <$> xs) ∧
    ∀ name info,
      pkg_version_date r !! name = Some info →
      pkg_version_date locals !! name = Some info ∨
      ∃ pkg installed_version_time current_time latest_version_time,
        pkg ∈ xs ∧ pkg !! "name" = name ∧
        info = pkg_info (pkg !! "version") installed_version_time
                 (reconcile outdated_pkgs name (pkg !! "version")).1
                 current_time latest_version_time
                 (reconcile outdated_pkgs name (pkg !! "version")).2.
Proof.
  induction xs as [|pkg xs IH]; intros locals s r s'; simpl.
  - rewrite ret_eq. intros [= <- _]. split; [set_solver|]. by left.
  - rewrite bind_unfold, list_body_eq. cbv zeta.
    destruct (lookup_outcome w _) as [result|e]; [|done].
    destruct (release_times _ _ _ _) as [[[[bl bi] lvt] ivt]|e]; [|done].
    intros [Hdom Hentries]%IH. simpl in Hdom, Hentries. split.
    + rewrite Hdom, dom_insert_L. set_solver.
    + intros name info [Hold|Hnew]%Hentries.
      * apply lookup_insert_Some in Hold as [[<- <-]|[_ Hold]]; [|by left].
        right. exists pkg. do 3 eexists. split; [by left|done].
      * right. destruct Hnew as (pkg' & ? & ? & ? & Hin & ? & ?).
        exists pkg'. do 3 eexists. split; [by right|done].
Qed.

Lemma list_Return_inv w self s report s' :
  _list w self s = (Return report, s') →
  ∃ pip_list_result pip_list_latest_result locals s2,
    installed_packages w self = Return pip_list_result ∧
    outdated_packages w self = Return pip_list_latest_result ∧
    for_each (list_body w (collect_outdated pip_list_latest_result))
      pip_list_result initial_locals s2 = (Return locals, s') ∧
    report = pkg_version_date locals.
Proof.
  destruct (_output_directory self) as [d|] eqn:Hd.
  - rewrite (list_eq w self d) by done. cbv zeta.
    destruct (installed_packages w self) as [inst|]; [|done].
    destruct (outdated_packages w self) as [outd|]; [|done].
    destruct (for_each _ _ _ _) as [[locals|e] s3] eqn:Hloop; [|done].
    intros [= <- <-]. by eexists inst, outd, locals, _.
  - unfold _list, output_path. rewrite Hd, bind_unfold. done.
Qed.

(** C5.  In every report that the enrichment step returns, the entry under
    a name was made from a package of that name that [pip list] printed:
    it holds the version of that package as installed version, a latest
    version and [is_latest], and [is_latest] is true exactly when the two
    versions are equal.  When no package that [pip list -o] printed bears
    the name, the latest version is the installed one and [is_latest] is
    true.  When one does, the latest version is the [latest_version] of
    the last such package, and [is_latest] is still true when that version
    equals the installed one: being printed by [pip list -o] does not make
    a package outdated. *)
Theorem is_latest_by_value w self s report s' installed outdated name info :
  _list w self s = (Return report, s') →
  installed_packages w self = Return installed →
  outdated_packages w self = Return outdated →
  report !! name = Some info →
  ∃ (pkg : gmap string string) latest_version is_latest,
    pkg ∈ installed ∧ pkg !! "name" = name ∧
    info !! "installed_version" = Some (of_str (pkg !! "version")) ∧
    info !! "latest_version" = Some (of_str latest_version) ∧
    info !! "is_latest" = Some (JBool is_latest) ∧
    (is_latest = true ↔ latest_version = pkg !! "version") ∧
    (name ∉ (λ entry : gmap string string, entry !! "name") <$> outdated →
     latest_version = pkg !! "version" ∧ is_latest = true) ∧
    (∀ before (entry : gmap string string) after,
       outdated = (before ++ entry :: after)%list →
       entry !! "name" = name →
       name ∉ (λ entry : gmap string string, entry !! "name") <$> after →
       latest_version = entry !! "latest_version" ∧
       (entry !! "latest_version" = pkg !! "version" → is_latest = true)).
Proof.
  intros (inst & outd & locals & s2 & Hinst & Houtd & Hloop & ->)%list_Return_inv.
  rewrite Hinst, Houtd. intros [= ->] [= ->] Hinfo.
  apply for_each_list_body_entries in Hloop as [_ Hentries].
  apply Hentries in Hinfo as [Hinit|Hnew];
    [simpl in Hinit; by rewrite lookup_empty in Hinit|].
  destruct Hnew as (pkg & ivt & t & lvt & Hin & Hname & ->).
  exists pkg,
    (reconcile (collect_outdated outdated) name (pkg !! "version")).1,
    (reconcile (collect_outdated outdated) name (pkg !! "version")).2.
  split; [done|]. split; [done|]. do 3 (split; [done|]).
  split; [apply reconcile_is_latest|]. split.
  - intros Habsent%collect_outdated_lookup_None.
    unfold reconcile. by rewrite Habsent.
  - intros before entry after -> Hentry Hafter.
    assert (collect_outdated (before ++ entry :: after) !! name
            = Some (entry !! "latest_version")) as Hlisted.
    { unfold collect_outdated. rewrite foldl_app. simpl.
      rewrite foldl_outdated_other by done.
      by rewrite Hentry, lookup_insert_eq. }
    unfold reconcile. rewrite Hlisted. simpl. split; [done|].
    intros Hsame. by rewrite decide_False by (by intros []).
Qed.

Lemma is_latest_by_value_witness :
  ∃ report s' info,
    _list (listing_world example_installed listed_by_py2)
      (example_self false) empty_state = (Return report, s') ∧
    report !! Some "six" = Some info ∧
    info !! "installed_version" = Some (JStr "2.0") ∧
    info !! "latest_version" = Some (JStr "2.0") ∧
    info !! "is_latest" = Some (JBool true).
Proof.
  destruct (has_entry_true
              (_list (listing_world example_installed listed_by_py2)
                 (example_self false) empty_state) (Some "six"))
    as (report & s' & info & Hlist & Hinfo); [vm_compute; reflexivity|].
  exists report, s', info. split; [exact Hlist|]. split; [exact Hinfo|].
  destruct (is_latest_by_value
              (listing_world example_installed listed_by_py2)
              (example_self false) empty_state report s'
              example_installed listed_by_py2
              (Some "six") info Hlist eq_refl eq_refl Hinfo)
    as (pkg & latest_version & is_latest & Hin & Hname & Hinstalled &
        Hlatest & His_latest & _ & _ & Hlisted).
  destruct (Hlisted
              [ {[ "name" := "numpy"; "version" := "1.0";
                   "latest_version" := "1.1" ]} ]
              {[ "name" := "six"; "version" := "2.0";
                 "latest_version" := "2.0" ]}
              [] eq_refl eq_refl ltac:(by intros ?%elem_of_nil))
    as [-> Hequal].
  assert (pkg !! "version" = Some "2.0") as Hversion.
  { apply elem_of_cons in Hin as [->|Hin]; [by vm_compute in Hname|].
    apply elem_of_cons in Hin as [->|Hin]; [done|].
    by apply elem_of_nil in Hin. }
  rewrite Hversion in Hinstalled, Hequal.
  rewrite Hequal in His_latest by done.
  by split; [|split].
Defined.

(** C9.  The keys of a report that the enrichment step returns are exactly
    the names of the packages that [pip list] printed: every such package
    has an entry, a name that is not among them (were it in the outdated
    list) has none, and every entry has the six keys of a [pkg_info] and
    no other. *)
Theorem report_keys_are_installed_names w self s report s' installed :
  _list w self s = (Return report, s') →
  installed_packages w self = Return installed →
  dom report =
    list_to_set ((λ pkg : gmap string string, pkg !! "name") <$> installed) ∧
  (∀ pkg : gmap string string,
     pkg ∈ installed → is_Some (report !! (pkg !! "name"))) ∧
  (∀ name,
     name ∉ (λ pkg : gmap string string, pkg !! "name") <$> installed →
     report !! name = None) ∧
  (∀ name info, report !! name = Some info → dom info = pkg_info_keys).
Proof.
  intros (inst & outd & locals & s2 & Hinst & _ & Hloop & ->)%list_Return_inv.
  rewrite Hinst. intros [= ->].
  apply for_each_list_body_entries in Hloop as [Hdom Hentries].
  simpl in Hdom. rewrite dom_empty_L, (left_id_L ∅ (∪)) in Hdom.
  split; [done|]. split; [|split].
  - intros pkg Hin. apply elem_of_dom. rewrite Hdom.
    apply elem_of_list_to_set, list_elem_of_fmap. by exists pkg.
  - intros name Hname. apply not_elem_of_dom. rewrite Hdom.
    by rewrite elem_of_list_to_set.
  - intros name info [Hinit|Hnew]%Hentries;
      [simpl in Hinit; by rewrite lookup_empty in Hinit|].
    destruct Hnew as (pkg & ivt & t & lvt & _ & _ & ->). apply dom_pkg_info.
Qed.

Lemma report_keys_are_installed_names_witness :
  ∃ report s',
    _list (example_world 0 0 (Body "<numpy>") (λ _, "")) (example_self false)
      empty_state = (Return report, s') ∧
    dom report =
      list_to_set ((λ pkg : gmap string string, pkg !! "name")
                     <$> example_installed) ∧
    (∀ pkg : gmap string string,
       pkg ∈ example_installed → is_Some (report !! (pkg !! "name"))) ∧
    (∀ name,
       name ∉ (λ pkg : gmap string string, pkg !! "name")
                <$> example_installed →
       report !! name = None) ∧
    (∀ name info, report !! name = Some info → dom info = pkg_info_keys).
Proof.
  destruct (returns_true
              (_list (example_world 0 0 (Body "<numpy>") (λ _, ""))
                 (example_self false) empty_state))
    as (report & s' & Hlist); [vm_compute; reflexivity|].
  exists report, s'. split; [exact Hlist|].
  exact (report_keys_are_installed_names
           (example_world 0 0 (Body "<numpy>") (λ _, ""))
           (example_self false) empty_state report s' example_installed
           Hlist eq_refl).
Defined.

(** * Determinism of the enrichment step *)

Lemma erase_pkg_info installed_version installed_version_time
    latest_version current_time current_time' latest_version_time is_latest :
  delete "current_time"
    (pkg_info installed_version installed_version_time latest_version
       current_time latest_version_time is_latest) =
  delete "current_time"
    (pkg_info installed_version installed_version_time latest_version
       current_time' latest_version_time is_latest).
Proof.
  unfold pkg_info.
  rewrite !(delete_insert_ne _ "current_time" "installed_version") by done.
  rewrite !(delete_insert_ne _ "current_time" "installed_version_time")
    by done.
  rewrite !(delete_insert_ne _ "current_time" "latest_version") by done.
  by rewrite !delete_insert_eq.
Qed.

Lemma release_times_locals a b result latest_version installed_version :
  latest_release a = latest_release b →
  installed_release a = installed_release b →
  release_times a result latest_version installed_version =
  release_times b result latest_version installed_version.
Proof. unfold release_times. by intros -> ->. Qed.

Lemma lookup_outcome_ext w1 w2 url :
  (∀ url, urlopen w1 url = urlopen w2 url) →
  (∀ text, json_loads w1 text = json_loads w2 text) →
  lookup_outcome w1 url = lookup_outcome w2 url.
Proof.
  intros Hurl Hjson. unfold lookup_outcome. rewrite Hurl.
  destruct (urlopen w2 url); [|done..]. by rewrite Hjson.
Qed.

Lemma list_body_agree w1 w2 outdated_pkgs a b pkg s1 s2 :
  (∀ url, urlopen w1 url = urlopen w2 url) →
  (∀ text, json_loads w1 text = json_loads w2 text) →
  locals_agree a b →
  outcome_rel locals_agree
    (list_body w1 outdated_pkgs a pkg s1).1
    (list_body w2 outdated_pkgs b pkg s2).1.
Proof.
  intros Hurl Hjson (Hreport & Hlatest & Hinstalled).
  rewrite !list_body_eq. cbv zeta.
  rewrite (lookup_outcome_ext w1 w2) by done.
  destruct (lookup_outcome w2 _) as [result|e]; [|done].
  rewrite (release_times_locals a b) by done.
  destruct (release_times b _ _ _) as [[[[bl bi] lvt] ivt]|e]; [|done].
  simpl. split; [|done]. unfold erase_current_time in *.
  cbn [pkg_version_date]. rewrite !fmap_insert, Hreport.
  by rewrite (erase_pkg_info _ _ _ (now_isoformat w1 (clock s1))
                (now_isoformat w2 (clock s2))).
Qed.

Lemma for_each_list_body_agree w1 w2 outdated_pkgs xs :
  (∀ url, urlopen w1 url = urlopen w2 url) →
  (∀ text, json_loads w1 text = json_loads w2 text) →
  ∀ a b s1 s2,
    locals_agree a b →
    outcome_rel locals_agree
      (for_each (list_body w1 outdated_pkgs) xs a s1).1
      (for_each (list_body w2 outdated_pkgs) xs b s2).1.
Proof.
  intros Hurl Hjson.
  induction xs as [|pkg xs IH]; intros a b s1 s2 Hagree; simpl; [done|].
  rewrite !bind_unfold.
  assert (Hbody := list_body_agree w1 w2 outdated_pkgs a b pkg s1 s2
                     Hurl Hjson Hagree).
  destruct (list_body w1 _ _ _ _) as [[a'|e1] s1'],
           (list_body w2 _ _ _ _) as [[b'|e2] s2']; simpl in Hbody;
    try done.
  by apply IH.
Qed.

(** C8.  Take two runs of the enrichment step, in two worlds and from two
    states, each with its own scratch directory.  If [pip list] printed the
    same packages in both, [pip list -o] too, and the registry and the JSON
    decoder answer alike, then the two runs raise the same exception or
    return two reports that are equal once the [current_time] field of
    every entry is removed: the clock, the files, the directories and the
    exit codes play no part. *)
Theorem enrichment_deterministic w1 w2 self1 self2 d1 d2 s1 s2 :
  _output_directory self1 = Some d1 →
  _output_directory self2 = Some d2 →
  installed_packages w1 self1 = installed_packages w2 self2 →
  outdated_packages w1 self1 = outdated_packages w2 self2 →
  (∀ url, urlopen w1 url = urlopen w2 url) →
  (∀ text, json_loads w1 text = json_loads w2 text) →
  outcome_map erase_current_time (_list w1 self1 s1).1 =
  outcome_map erase_current_time (_list w2 self2 s2).1.
Proof.
  intros Hd1 Hd2 Hinst Houtd Hurl Hjson.
  rewrite (list_eq w1 self1 d1), (list_eq w2 self2 d2) by done. cbv zeta.
  rewrite Hinst, Houtd.
  destruct (installed_packages w2 self2) as [inst|]; [|done].
  destruct (outdated_packages w2 self2) as [outd|]; [|done].
  match goal with
  | |- context [for_each (list_body w1 ?o) ?xs ?a ?t1] =>
      match goal with
      | |- context [for_each (list_body w2 o) xs a ?t2] =>
          assert (Hloop := for_each_list_body_agree w1 w2 o xs Hurl Hjson
                             a a t1 t2 (conj eq_refl (conj eq_refl eq_refl)));
          destruct (for_each (list_body w1 o) xs a t1) as [[r1|e1] t1'],
                   (for_each (list_body w2 o) xs a t2) as [[r2|e2] t2']
      end
  end; simpl in Hloop; try done.
  - destruct Hloop as [Hreport _]. simpl. by rewrite Hreport.
  - simpl. by rewrite Hloop.
Qed.

Lemma enrichment_deterministic_witness :
  outcome_map erase_current_time
    (_list (example_world 0 0 (Body "<numpy>") (λ _, "2018-06-14T13:46:04"))
       (example_self false) empty_state).1 =
  outcome_map erase_current_time
    (_list (example_world 0 1 (Body "<numpy>") (λ _, "2019-01-01T00:00:00"))
       {| _pip_command := ["pip"]; _packages := ["numpy"];
          _tmp_path := Some "/var/tmp";
          _output_directory := Some "/var/tmp/tmpq7";
          _clean := true |}
       (ticked (requested "https://pypi.org/pypi/six/2.0/json"
                  empty_state))).1.
Proof.
  exact (enrichment_deterministic
           (example_world 0 0 (Body "<numpy>") (λ _, "2018-06-14T13:46:04"))
           (example_world 0 1 (Body "<numpy>") (λ _, "2019-01-01T00:00:00"))
           (example_self false)
           {| _pip_command := ["pip"]; _packages := ["numpy"];
              _tmp_path := Some "/var/tmp";
              _output_directory := Some "/var/tmp/tmpq7";
              _clean := true |}
           "/tmp/tmpk3x" "/var/tmp/tmpq7" empty_state
           (ticked (requested "https://pypi.org/pypi/six/2.0/json"
                      empty_state))
           eq_refl eq_refl eq_refl eq_refl
           (λ _, eq_refl) (λ _, eq_refl)).
Defined.

(** * Failures of the registry *)

Lemma list_body_requests w outdated_pkgs locals pkg s r s' :
  list_body w outdated_pkgs locals pkg s = (r, s') →
  ∃ url,
    requests s' = (requests s ++ [url])%list ∧
    ∀ e, lookup_outcome w url = Raise e → r = Raise e.
Proof.
  rewrite list_body_eq. cbv zeta.
  match goal with
  | |- context [lookup_outcome w ?u] => intros H; exists u; revert H
  end.
  destruct (lookup_outcome w _) as [result|e1].
  - destruct (release_times _ _ _ _) as [[[[bl bi] lvt] ivt]|e1];
      intros [= <- <-]; by split.
  - intros [= <- <-]. split; [done|]. by intros e [= ->].
Qed.

Lemma for_each_list_body_requests w outdated_pkgs xs :
  ∀ locals s r s',
    for_each (list_body w outdated_pkgs) xs locals s = (r, s') →
    ∃ new,
      requests s' = (requests s ++ new)%list ∧
      ∀ url, url ∈ new → ∀ e, lookup_outcome w url = Raise e → r = Raise e.
Proof.
  induction xs as [|pkg xs IH]; intros locals s r s'; simpl.
  - rewrite ret_eq. intros [= <- <-]. exists []. split.
    + by rewrite app_nil_r.
    + by intros url ?%elem_of_nil.
  - rewrite bind_unfold.
    destruct (list_body _ _ _ _ _) as [[locals'|e1] s1] eqn:Hbody;
      apply list_body_requests in Hbody as (url1 & Hs1 & Hfail).
    + intros (new & Hs' & Hnew)%IH. exists (url1 :: new). split.
      * by rewrite Hs', Hs1, <- app_assoc.
      * intros url [->|Hin]%elem_of_cons e He; [|by eapply Hnew].
        by apply Hfail in He.
    + intros [= <- <-]. exists [url1]. split; [done|].
      intros url ->%list_elem_of_singleton. apply Hfail.
Qed.

Lemma clean_step_requests w self d s r s' :
  _output_directory self = Some d →
  clean_step w self s = (r, s') → requests s' = requests s.
Proof.
  intros Hd. rewrite (clean_step_eq w self d) by done. cbv zeta.
  destruct (_clean self); [|by intros [= _ <-]].
  destruct (negb _); [by intros [= _ <-]|].
  destruct (0 <? _)%nat; [|by intros [= _ <-]].
  destruct (negb _); by intros [= _ <-].
Qed.

Lemma list_requests w self d s r s' :
  _output_directory self = Some d →
  _list w self s = (r, s') →
  ∃ new,
    requests s' = (requests s ++ new)%list ∧
    ∀ url, url ∈ new → ∀ e, lookup_outcome w url = Raise e → r = Raise e.
Proof.
  intros Hd. rewrite (list_eq w self d) by done. cbv zeta.
  assert (∀ o : outcome (gmap (option string) (gmap string json)),
            ∃ new : list string,
              requests s = (requests s ++ new)%list ∧
              ∀ url, url ∈ new →
                     ∀ e, lookup_outcome w url = Raise e → o = Raise e)
    as Hnone.
  { intros o. exists []. split; [by rewrite app_nil_r|].
    by intros url ?%elem_of_nil. }
  destruct (installed_packages w self) as [inst|];
    [|intros [= <- <-]; apply Hnone].
  destruct (outdated_packages w self) as [outd|];
    [|intros [= <- <-]; apply Hnone].
  destruct (for_each _ _ _ _) as [[locals|e1] s3] eqn:Hloop;
    apply for_each_list_body_requests in Hloop as (new & Hs3 & Hnew);
    intros [= <- <-]; exists new; (split; [exact Hs3|]);
    intros url Hin e He; apply (Hnew url Hin) in He; by simplify_eq.
Qed.

Lemma run_requests w self s r s' :
  run w self s = (r, s') →
  ∃ new,
    requests s' = (requests s ++ new)%list ∧
    ∀ url, url ∈ new → ∀ e, lookup_outcome w url = Raise e → r = Raise e.
Proof.
  rewrite run_eq. cbv zeta.
  destruct (clean_step _ _ _) as [[[]|e1] s1] eqn:Hclean;
    apply (clean_step_requests w _ (mkdtemp w (_tmp_path self))) in Hclean;
    try done.
  2:{ intros [= <- <-]. exists []. split; [by rewrite Hclean, app_nil_r|].
      by intros url ?%elem_of_nil. }
  destruct (returncode _ =? 0)%Z.
  - destruct (_list _ _ _) as [[report|e1] s3] eqn:Hlist;
      apply (list_requests w _ (mkdtemp w (_tmp_path self))) in Hlist
        as (new & Hs3 & Hnew); try done;
      intros [= <- <-]; exists new; simpl in *;
      (split; [by rewrite Hs3, Hclean|]);
      intros url Hin e He; apply (Hnew url Hin) in He; by simplify_eq.
  - intros [= <- <-]. exists []. split; [by simpl; rewrite Hclean, app_nil_r|].
    by intros url ?%elem_of_nil.
Qed.

(** C10.  [_call_pypi_json_api] turns an HTTP error status into [None] and
    nothing else: a registry that does not answer, a body that is not
    UTF-8 and a body that is not JSON each make it raise.  And for every
    URL that [check] has fetched, if the registry did not answer, or
    answered with a body that is not UTF-8 or not JSON, then [check]
    raised that very exception: the caller got no result. *)
Theorem only_HTTPError_is_caught w :
  (∀ pkg_name pkg_version s,
     (_call_pypi_json_api w pkg_name pkg_version s).1 =
     match urlopen w (pypi_pkg_url pkg_name pkg_version) with
     | ErrorStatus _ => Return JNull
     | NoAnswer reason => Raise (URLError reason)
     | NotUTF8 => Raise UnicodeDecodeError
     | Body text =>
         match json_loads w text with
         | Some result => Return result
         | None => Raise JSONDecodeError
         end
     end) ∧
  (∀ pip_command packages tmp_path clean s r s' url,
     check w pip_command packages tmp_path clean s = (r, s') →
     url ∈ drop (List.length (requests s)) (requests s') →
     (∀ reason, urlopen w url = NoAnswer reason →
                r = Raise (URLError reason)) ∧
     (urlopen w url = NotUTF8 → r = Raise UnicodeDecodeError) ∧
     (∀ text, urlopen w url = Body text → json_loads w text = None →
              r = Raise JSONDecodeError)).
Proof.
  split.
  - intros pkg_name pkg_version s. rewrite call_pypi_json_api_eq. simpl.
    unfold lookup_outcome. by destruct (urlopen w _).
  - intros pip_command packages tmp_path clean s r s' url.
    unfold check. intros (new & Hs' & Hnew)%run_requests.
    rewrite Hs', drop_app_length. intros Hin.
    specialize (Hnew url Hin). unfold lookup_outcome in Hnew.
    repeat split.
    + intros reason Hurl. apply Hnew. by rewrite Hurl.
    + intros Hurl. apply Hnew. by rewrite Hurl.
    + intros text Hurl Hjson. apply Hnew. by rewrite Hurl, Hjson.
Qed.

Lemma only_HTTPError_is_caught_witness :
  (check (example_world 0 0 (NoAnswer "timed out") (λ _, ""))
     ["pip"] ["numpy"] None false empty_state).1
  = Raise (URLError "timed out").
Proof.
  refine (proj1 (proj2 (only_HTTPError_is_caught
                          (example_world 0 0 (NoAnswer "timed out")
                             (λ _, "")))
                   ["pip"] ["numpy"] None false empty_state _ _
                   "https://pypi.org/pypi/numpy/1.0/json"
                   (surjective_pairing _) _)
            "timed out" eq_refl).
  apply (bool_decide_unpack _). vm_compute. exact I.
Defined.

(** * A registry document without ['releases'] *)

(** C4, at the failing input.  When the first registry document of a run is
    a JSON object without the key ['releases'], [check] raises
    [UnboundLocalError] for [latest_release] instead of reporting null
    timestamps.  When such a document comes after one that had the key, the
    package is reported with the release times found for the package before
    it: here six, whose latest version is 3.0, gets the upload time of
    numpy 1.0. *)
Theorem missing_releases_breaks_enrichment :
  (check (example_world 0 0 (Body "{}") (λ _, "")) ["pip"] ["numpy"] None
     false empty_state).1
  = Raise (UnboundLocalError "latest_release") ∧
  reported_field (_list stale_world (example_self false) empty_state).1
    (Some "six") "latest_version" = Some (JStr "3.0") ∧
  reported_field (_list stale_world (example_self false) empty_state).1
    (Some "six") "latest_version_time" = Some (JStr "2018-06-06T15:08:26") ∧
  reported_field (_list stale_world (example_self false) empty_state).1
    (Some "numpy") "latest_version_time" = Some (JStr "2018-06-06T15:08:26").
Proof. split; [|split; [|split]]; vm_compute; reflexivity. Qed.

(** * Beyond the claims: what a run does to its environment *)

Lemma list_body_outside w outdated_pkgs locals pkg s r s' :
  list_body w outdated_pkgs locals pkg s = (r, s') →
  files s' = files s ∧ commands s' = commands s.
Proof.
  rewrite list_body_eq. cbv zeta.
  destruct (lookup_outcome w _) as [result|e]; [|by intros [= _ <-]].
  destruct (release_times _ _ _ _) as [[[[bl bi] lvt] ivt]|e];
    by intros [= _ <-].
Qed.

Lemma for_each_list_body_outside w outdated_pkgs xs :
  ∀ locals s r s',
    for_each (list_body w outdated_pkgs) xs locals s = (r, s') →
    files s' = files s ∧ commands s' = commands s.
Proof.
  induction xs as [|pkg xs IH]; intros locals s r s'; simpl.
  - rewrite ret_eq. by intros [= _ <-].
  - rewrite bind_unfold.
    destruct (list_body _ _ _ _ _) as [[locals'|e] s1] eqn:Hbody;
      apply list_body_outside in Hbody as [Hfiles Hcommands].
    + intros [? ?]%IH. split; congruence.
    + by intros [= _ <-].
Qed.

Lemma clean_step_commands w self d s s' :
  _output_directory self = Some d →
  mkdtemp w (_tmp_path self) = d →
  clean_step w self s = (Return (), s') →
  commands s' = (commands s ++ clean_commands w self)%list.
Proof.
  intros Hd Hmk. rewrite (clean_step_eq w self d) by done. cbv zeta.
  unfold clean_commands. rewrite Hmk.
  destruct (_clean self); [|intros [= <-]; by rewrite app_nil_r].
  destruct (negb _); [done|].
  destruct (0 <? _)%nat; [|by intros [= <-]].
  destruct (negb _); [done|]. intros [= <-]. simpl. by rewrite <- app_assoc.
Qed.

Lemma list_commands w self d s report s' :
  _output_directory self = Some d →
  _list w self s = (Return report, s') →
  commands s' =
    (commands s ++ [list_command self; list_outdated_command self])%list.
Proof.
  intros Hd. rewrite (list_eq w self d) by done. cbv zeta.
  destruct (installed_packages w self) as [inst|]; [|done].
  destruct (outdated_packages w self) as [outd|]; [|done].
  destruct (for_each _ _ _ _) as [[locals|e] s3] eqn:Hloop; [|done].
  apply for_each_list_body_outside in Hloop as [_ Hcommands].
  intros [= _ <-]. rewrite Hcommands. simpl. by rewrite <- app_assoc.
Qed.

(** X1.  A result that [run] returns names the packages that were asked
    for, whatever its kind. *)
Theorem result_names_the_request w self s result s' :
  run w self s = (Return result, s') → packages result = _packages self.
Proof.
  rewrite run_eq. cbv zeta.
  destruct (clean_step _ _ _) as [[[]|e] s1]; [|done].
  unfold install_result_of, check_result_of.
  destruct (returncode (subprocess_run w (install_command self)) =? 0)%Z.
  - destruct (_list _ _ _) as [[report|e] s3]; [|done].
    destruct (returncode _ =? 0)%Z;
      [|destruct (text_of w _) as [text|e]; [|done]];
      by intros [= <- _].
  - destruct (text_of w _) as [text|e]; [|done]. by intros [= <- _].
Qed.

Lemma result_names_the_request_witness :
  ∃ result s',
    run (example_world 1 0 (Body "<numpy>") (λ _, "")) (example_self false)
        empty_state = (Return result, s') ∧
    packages result = ["numpy"].
Proof.
  destruct (returns_true
              (run (example_world 1 0 (Body "<numpy>") (λ _, ""))
                 (example_self false) empty_state))
    as (result & s' & Hrun); [vm_compute; reflexivity|].
  exists result, s'. split; [exact Hrun|].
  exact (result_names_the_request _ _ _ _ _ Hrun).
Defined.

(** X2.  The external commands of a run that returns a result, in the order
    they ran: the commands of the clean step ([pip freeze], then
    [pip uninstall] when the freeze printed something; none without the
    clean flag), then [pip install], and, unless the result is an
    [INSTALL_ERROR], [pip list], [pip list -o] and [pip check]. *)
Theorem commands_in_order w self s result s' :
  run w self s = (Return result, s') →
  commands s' =
    (commands s ++ clean_commands w self ++
     install_command self ::
     (if decide (result_type result = INSTALL_ERROR) then []
      else report_commands self))%list.
Proof.
  rewrite run_eq. cbv zeta.
  destruct (clean_step _ _ _) as [[[]|e] s1] eqn:Hclean; [|done].
  apply (clean_step_commands w _ (mkdtemp w (_tmp_path self))) in Hclean;
    [|done..].
  change (clean_commands w (set_output_directory self _))
    with (clean_commands w self) in Hclean.
  unfold install_result_of, check_result_of.
  destruct (returncode (subprocess_run w (install_command self)) =? 0)%Z.
  - destruct (_list _ _ _) as [[report|e] s3] eqn:Hlist; [|done].
    apply (list_commands w _ (mkdtemp w (_tmp_path self))) in Hlist;
      [|done].
    simpl in Hlist.
    destruct (returncode _ =? 0)%Z;
      [|destruct (text_of w _) as [text|e]; [|done]];
      intros [= <- <-]; simpl;
      rewrite Hlist, Hclean, <- !app_assoc; done.
  - destruct (text_of w _) as [text|e]; [|done].
    intros [= <- <-]. simpl. by rewrite Hclean, <- !app_assoc.
Qed.

Lemma commands_in_order_witness :
  ∃ result s',
    run (example_world 0 0 (Body "<numpy>") (λ _, "")) (example_self false)
        empty_state = (Return result, s') ∧
    commands s' =
      ([] ++ clean_commands (example_world 0 0 (Body "<numpy>") (λ _, ""))
               (example_self false) ++
       install_command (example_self false) ::
       (if decide (result_type result = INSTALL_ERROR) then []
        else report_commands (example_self false)))%list.
Proof.
  destruct (returns_true
              (run (example_world 0 0 (Body "<numpy>") (λ _, ""))
                 (example_self false) empty_state))
    as (result & s' & Hrun); [vm_compute; reflexivity|].
  exists result, s'. split; [exact Hrun|].
  exact (commands_in_order _ _ _ _ _ Hrun).
Defined.

(** * Beyond the claims: the lookups of the enrichment step *)

Lemma for_each_list_body_lookups w outdated_pkgs xs :
  ∀ locals s r s',
    for_each (list_body w outdated_pkgs) xs locals s = (Return r, s') →
    requests s' = (requests s ++ (lookup_url outdated_pkgs <$> xs))%list ∧
    clock s' = (clock s + List.length xs)%nat.
Proof.
  induction xs as [|pkg xs IH]; intros locals s r s'; simpl.
  - rewrite ret_eq. intros [= _ <-]. by rewrite app_nil_r, Nat.add_0_r.
  - rewrite bind_unfold, list_body_eq. cbv zeta.
    destruct (lookup_outcome w _) as [result|e]; [|done].
    destruct (release_times _ _ _ _) as [[[[bl bi] lvt] ivt]|e]; [|done].
    intros [-> ->]%IH. simpl. split; [by rewrite <- app_assoc|lia].
Qed.

(** X4.  When the enrichment step returns a report it has made exactly one
    registry request for each package that [pip list] printed, in the order
    of that list, each for the latest version of the package (the installed
    version is never asked for on its own), and has read the clock once for
    each of them. *)
Theorem one_lookup_per_installed_package w self s report s' installed
    outdated :
  _list w self s = (Return report, s') →
  installed_packages w self = Return installed →
  outdated_packages w self = Return outdated →
  requests s' =
    (requests s ++ (lookup_url (collect_outdated outdated) <$> installed))%list
  ∧ clock s' = (clock s + List.length installed)%nat.
Proof.
  destruct (_output_directory self) as [d|] eqn:Hd.
  2:{ unfold _list, output_path. rewrite Hd, bind_unfold. done. }
  rewrite (list_eq w self d) by done. cbv zeta.
  intros Hlist Hinst Houtd. rewrite Hinst, Houtd in Hlist.
  destruct (for_each _ _ _ _) as [[locals|e] s3] eqn:Hloop; [|done].
  injection Hlist as _ <-.
  by apply for_each_list_body_lookups in Hloop.
Qed.

Lemma one_lookup_per_installed_package_witness :
  ∃ s',
    (_list (example_world 0 0 (Body "<numpy>") (λ _, "")) (example_self false)
       empty_state).2 = s' ∧
    requests s' = ["https://pypi.org/pypi/numpy/1.0/json";
                   "https://pypi.org/pypi/six/3.0/json"] ∧
    clock s' = 2%nat.
Proof.
  destruct (returns_true
              (_list (example_world 0 0 (Body "<numpy>") (λ _, ""))
                 (example_self false) empty_state))
    as (report & s' & Hlist); [vm_compute; reflexivity|].
  exists s'. split; [by rewrite Hlist|].
  exact (one_lookup_per_installed_package
           (example_world 0 0 (Body "<numpy>") (λ _, ""))
           (example_self false) empty_state report s' example_installed
           example_outdated Hlist eq_refl eq_refl).
Defined.

(** * Beyond the claims: registry documents of the expected shape *)

Lemma assoc_file_list releases version release :
  forallb (λ kv : string * json, is_file_list kv.2) releases = true →
  assoc version releases = Some release →
  is_file_list release = true.
Proof.
  induction releases as [|[k v] releases IH]; simpl; [done|].
  intros [Hv Hrest]%andb_prop. destruct (String.eqb version k).
  - by intros [= <-].
  - by apply IH.
Qed.

Lemma upload_time_of_listed releases version :
  forallb (λ kv : string * json, is_file_list kv.2) releases = true →
  upload_time_of
    (match version with
     | Some v => default JNull (assoc v releases)
     | None => JNull
     end) = Return (first_upload_time releases version).
Proof.
  intros Hreleases. unfold first_upload_time.
  destruct version as [v|]; [|done].
  destruct (assoc v releases) as [release|] eqn:Hrelease; [|done].
  apply (assoc_file_list _ _ _ Hreleases) in Hrelease. simpl.
  destruct release as [| | | |files|]; try done.
  destruct files as [|file files]; [done|].
  simpl in Hrelease. apply andb_prop in Hrelease as [Hfile _].
  by destruct file.
Qed.

(** X5.  For a registry document of the expected shape, the release times
    of a package are the ['upload_time'] of the first file listed for its
    latest version and for its installed version, each being [None] when
    the version is not listed, has no file, or the field is missing; both
    are read from the one document fetched for the latest version, and no
    exception is raised. *)
Theorem release_times_of_well_formed_document locals kvs releases
    latest_version installed_version :
  well_formed_document (JObj kvs) = true →
  assoc "releases" kvs = Some (JObj releases) →
  ∃ bound_latest bound_installed,
    release_times locals (JObj kvs) latest_version installed_version =
    Return (Some bound_latest, Some bound_installed,
            first_upload_time releases latest_version,
            first_upload_time releases installed_version).
Proof.
  unfold well_formed_document. intros Hwf Hreleases.
  rewrite Hreleases in Hwf.
  unfold release_times, py_contains. rewrite Hreleases. simpl.
  rewrite Hreleases. simpl.
  rewrite !upload_time_of_listed by done. simpl. by eexists _, _.
Qed.

Lemma release_times_of_well_formed_document_witness :
  ∃ bound_latest bound_installed,
    release_times initial_locals
      (JObj [("releases",
              JObj [("1.0", JArr [JObj [("upload_time", JStr "2018")]]);
                    ("0.9", JArr [])])])
      (Some "1.0") (Some "0.9") =
    Return (Some bound_latest, Some bound_installed, JStr "2018", JNull).
Proof.
  exact (release_times_of_well_formed_document initial_locals
           [("releases",
             JObj [("1.0", JArr [JObj [("upload_time", JStr "2018")]]);
                   ("0.9", JArr [])])]
           [("1.0", JArr [JObj [("upload_time", JStr "2018")]]);
            ("0.9", JArr [])]
           (Some "1.0") (Some "0.9") eq_refl eq_refl).
Defined.

Lemma release_times_returns_when_usable locals doc latest_version
    installed_version :
  doc = JNull ∨ well_formed_document doc = true →
  returns (release_times locals doc latest_version installed_version) = true.
Proof.
  intros [->|Hwf]; [done|].
  destruct doc as [| | | | |kvs]; try done.
  unfold well_formed_document in Hwf.
  destruct (assoc "releases" kvs) as [[| | | | |releases]|] eqn:Hreleases;
    try done.
  unfold release_times, py_contains. rewrite Hreleases. simpl.
  rewrite Hreleases. simpl. by rewrite !upload_time_of_listed.
Qed.

Lemma lookup_outcome_usable w url :
  usable_answer w url →
  ∃ doc, lookup_outcome w url = Return doc ∧
         (doc = JNull ∨ well_formed_document doc = true).
Proof.
  unfold usable_answer, lookup_outcome.
  destruct (urlopen w url) as [text| | |]; try done.
  - destruct (json_loads w text) as [doc|]; [|done]. by exists doc.
  - intros _. exists JNull. by split; [|left].
Qed.

Lemma for_each_list_body_returns w outdated_pkgs xs :
  Forall (λ pkg, usable_answer w (lookup_url outdated_pkgs pkg)) xs →
  ∀ locals s,
    returns (for_each (list_body w outdated_pkgs) xs locals s).1 = true.
Proof.
  induction 1 as [|pkg xs Hpkg _ IH]; intros locals s; simpl; [done|].
  rewrite bind_unfold, list_body_eq. cbv zeta.
  apply lookup_outcome_usable in Hpkg as (doc & Hdoc & Husable).
  unfold lookup_url in Hdoc. rewrite Hdoc.
  apply (release_times_returns_when_usable locals doc
           (reconcile outdated_pkgs (pkg !! "name") (pkg !! "version")).1
           (pkg !! "version")) in Husable.
  destruct (release_times _ _ _ _) as [[[[bl bi] lvt] ivt]|e]; [|done].
  apply IH.
Qed.

(** X6.  The enrichment step returns a report whenever both outputs of
    [pip list] decode and the registry answers the lookup of every
    installed package with an HTTP error status, with the document [null],
    or with a document of the expected shape: an object whose ['releases']
    maps versions to sequences of file-upload records. *)
Theorem enrichment_returns_on_usable_answers w self d s installed outdated :
  _output_directory self = Some d →
  installed_packages w self = Return installed →
  outdated_packages w self = Return outdated →
  Forall (λ pkg, usable_answer w (lookup_url (collect_outdated outdated) pkg))
    installed →
  ∃ report s', _list w self s = (Return report, s').
Proof.
  intros Hd Hinst Houtd Husable.
  rewrite (list_eq w self d) by done. cbv zeta. rewrite Hinst, Houtd.
  match goal with
  | |- context [for_each ?body ?xs ?locals ?t] =>
      assert (Hloop := for_each_list_body_returns w _ _ Husable locals t);
      destruct (for_each body xs locals t) as [[r|e] s3]; [|done]
  end.
  by eexists _, _.
Qed.

Lemma enrichment_returns_on_usable_answers_witness :
  ∃ report s',
    _list (example_world 0 0 (Body "<numpy>") (λ _, "")) (example_self false)
      empty_state = (Return report, s').
Proof.
  refine (enrichment_returns_on_usable_answers
            (example_world 0 0 (Body "<numpy>") (λ _, ""))
            (example_self false) "/tmp/tmpk3x" empty_state
            example_installed example_outdated eq_refl eq_refl eq_refl _).
  constructor; [vm_compute; by right|].
  constructor; [vm_compute; exact I|]. constructor.
Defined.

Lemma for_each_list_body_not_found w outdated_pkgs xs :
  Forall (λ pkg, ∃ code,
            urlopen w (lookup_url outdated_pkgs pkg) = ErrorStatus code) xs →
  ∀ locals s,
    ∃ r s',
      for_each (list_body w outdated_pkgs) xs locals s = (Return r, s') ∧
      ∀ name info,
        pkg_version_date r !! name = Some info →
        pkg_version_date locals !! name = Some info ∨
        (info !! "installed_version_time" = Some JNull ∧
         info !! "latest_version_time" = Some JNull).
Proof.
  induction 1 as [|pkg xs [code Hpkg] _ IH]; intros locals s; simpl.
  - rewrite ret_eq. eexists _, _. split; [done|]. by left.
  - rewrite bind_unfold, list_body_eq. cbv zeta.
    unfold lookup_url in Hpkg. unfold lookup_outcome. rewrite Hpkg. simpl.
    match goal with
    | |- context [for_each ?body xs ?locals' ?t] =>
        destruct (IH locals' t) as (r & s' & -> & Hentries)
    end.
    exists r, s'. split; [done|].
    intros name info [Hold|Hnull]%Hentries; [|by right].
    simpl in Hold. apply lookup_insert_Some in Hold as [[_ <-]|[_ Hold]];
      [by right|by left].
Qed.

(** X7.  When the registry answers the lookup of every installed package
    with an HTTP error status, the enrichment step still returns a report,
    and both release times of every entry are [None]. *)
Theorem not_found_everywhere_gives_null_times w self d s installed outdated :
  _output_directory self = Some d →
  installed_packages w self = Return installed →
  outdated_packages w self = Return outdated →
  Forall (λ pkg, ∃ code,
            urlopen w (lookup_url (collect_outdated outdated) pkg)
            = ErrorStatus code) installed →
  ∃ report s',
    _list w self s = (Return report, s') ∧
    ∀ name info,
      report !! name = Some info →
      info !! "installed_version_time" = Some JNull ∧
      info !! "latest_version_time" = Some JNull.
Proof.
  intros Hd Hinst Houtd Hnotfound.
  rewrite (list_eq w self d) by done. cbv zeta. rewrite Hinst, Houtd.
  match goal with
  | |- context [for_each ?body ?xs ?locals ?t] =>
      destruct (for_each_list_body_not_found w _ _ Hnotfound locals t)
        as (r & s3 & -> & Hentries)
  end.
  exists (pkg_version_date r), s3. split; [done|].
  intros name info [Hinit|Hnull]%Hentries; [|done].
  simpl in Hinit. by rewrite lookup_empty in Hinit.
Qed.

Lemma not_found_everywhere_gives_null_times_witness :
  ∃ report s',
    _list (example_world 0 0 (ErrorStatus 404) (λ _, ""))
      (example_self false) empty_state = (Return report, s') ∧
    ∀ name info,
      report !! name = Some info →
      info !! "installed_version_time" = Some JNull ∧
      info !! "latest_version_time" = Some JNull.
Proof.
  refine (not_found_everywhere_gives_null_times
            (example_world 0 0 (ErrorStatus 404) (λ _, ""))
            (example_self false) "/tmp/tmpk3x" empty_state
            example_installed example_outdated eq_refl eq_refl eq_refl _).
  constructor; [by exists 404%Z|].
  constructor; [by exists 404%Z|]. constructor.
Defined.

(** * Beyond the claims: packages listed more than once *)

(** X8.  When the outdated list names a package more than once, its last
    entry decides: the latest version recorded for a name is the one of the
    last package of the list that bears it. *)
Theorem last_outdated_entry_wins (before after : list (gmap string string))
    (pkg : gmap string string) :
  pkg !! "name" ∉ (λ p : gmap string string, p !! "name") <$> after →
  collect_outdated (before ++ pkg :: after) !! (pkg !! "name")
  = Some (pkg !! "latest_version").
Proof.
  intros Hafter. unfold collect_outdated. rewrite foldl_app. simpl.
  rewrite foldl_outdated_other by done. by rewrite lookup_insert_eq.
Qed.

Lemma last_outdated_entry_wins_witness :
  collect_outdated
    ([ {[ "name" := "six"; "latest_version" := "3.0" ]} ] ++
     {[ "name" := "six"; "latest_version" := "4.0" ]} ::
     [ {[ "name" := "numpy"; "latest_version" := "2.0" ]} ])
    !! Some "six"
  = Some (Some "4.0").
Proof.
  refine (last_outdated_entry_wins
            [ {[ "name" := "six"; "latest_version" := "3.0" ]} ]
            [ {[ "name" := "numpy"; "latest_version" := "2.0" ]} ]
            {[ "name" := "six"; "latest_version" := "4.0" ]} _).
  apply (bool_decide_unpack _). vm_compute. exact I.
Defined.

Lemma for_each_app {A B} (body : B → A → M B) (xs ys : list A) :
  ∀ acc s,
    for_each body (xs ++ ys) acc s =
    match for_each body xs acc s with
    | (Return acc', s') => for_each body ys acc' s'
    | (Raise e, s') => (Raise e, s')
    end.
Proof.
  induction xs as [|x xs IH]; intros acc s; simpl; [done|].
  rewrite !bind_unfold. destruct (body acc x s) as [[acc'|e] s1]; [|done].
  apply IH.
Qed.

(** X9.  When [pip list] names a package more than once, its last entry
    decides: the report has one entry under that name, and the installed
    version in it is the one of the last package of the list that bears the
    name. *)
Theorem last_installed_entry_wins w self s report s'
    (before after : list (gmap string string)) (pkg : gmap string string) :
  _list w self s = (Return report, s') →
  installed_packages w self = Return (before ++ pkg :: after)%list →
  pkg !! "name" ∉ (λ p : gmap string string, p !! "name") <$> after →
  ∃ info,
    report !! (pkg !! "name") = Some info ∧
    info !! "installed_version" = Some (of_str (pkg !! "version")).
Proof.
  intros (inst & outd & locals & s2 & Hinst & _ & Hloop & ->)%list_Return_inv.
  rewrite Hinst. intros [= ->] Hafter.
  rewrite for_each_app in Hloop.
  destruct (for_each _ before _ _) as [[locals1|e] s3]; [|done].
  simpl in Hloop. rewrite bind_unfold, list_body_eq in Hloop.
  cbv zeta in Hloop.
  destruct (lookup_outcome w _) as [result|e]; [|done].
  destruct (release_times _ _ _ _) as [[[[bl bi] lvt] ivt]|e]; [|done].
  apply for_each_list_body_entries in Hloop as [Hdom Hentries].
  simpl in Hdom, Hentries.
  assert (is_Some (pkg_version_date locals !! (pkg !! "name")))
    as [info Hinfo].
  { apply elem_of_dom. rewrite Hdom, dom_insert_L. set_solver. }
  exists info. split; [done|].
  apply Hentries in Hinfo as [Hold|Hnew].
  - rewrite lookup_insert_eq in Hold. by injection Hold as <-.
  - destruct Hnew as (pkg' & ? & ? & ? & Hin & Hname & _).
    destruct Hafter. apply list_elem_of_fmap. by exists pkg'.
Qed.

Lemma last_installed_entry_wins_witness :
  ∃ report s' info,
    _list (listing_world installed_twice []) (example_self false)
      empty_state = (Return report, s') ∧
    report !! Some "six" = Some info ∧
    info !! "installed_version" = Some (JStr "2.0").
Proof.
  destruct (returns_true
              (_list (listing_world installed_twice [])
                 (example_self false) empty_state))
    as (report & s' & Hlist); [vm_compute; reflexivity|].
  destruct (last_installed_entry_wins
              (listing_world installed_twice [])
              (example_self false) empty_state report s'
              [ {[ "name" := "six"; "version" := "1.0" ]};
                {[ "name" := "numpy"; "version" := "1.0" ]} ] []
              {[ "name" := "six"; "version" := "2.0" ]}
              Hlist eq_refl (not_elem_of_nil _)) as (info & Hinfo & Hversion).
  exists report, s', info. split; [exact Hlist|].
  split; [exact Hinfo|exact Hversion].
Defined.

(** * Beyond the claims: the clean step *)

Lemma redirected_lookup_other w command out err s path :
  path ≠ out → path ≠ err →
  files (redirected w command out err s) !! path = files s !! path.
Proof.
  intros Hout Herr. unfold redirected; simpl.
  destruct (decide (out = err)); by rewrite !lookup_insert_ne.
Qed.

(** X10.  When the clean flag is set and the clean step returns, [pip
    freeze] exited with zero, [pip uninstall] exited with zero if the
    freeze printed anything, and [requirements-old.txt] in the scratch
    directory holds what the freeze printed. *)
Theorem clean_step_keeps_frozen_requirements w self d s s' :
  _output_directory self = Some d →
  _clean self = true →
  clean_step w self s = (Return (), s') →
  let req := os_path_join d "requirements-old.txt" in
  let freeze := subprocess_run w (freeze_command self) in
  returncode freeze = 0%Z ∧
  (stdout freeze ≠ "" →
   returncode (subprocess_run w (uninstall_command self req)) = 0%Z) ∧
  files s' !! req = Some (stdout freeze).
Proof.
  intros Hd Hclean. rewrite (clean_step_eq w self d) by done. cbv zeta.
  rewrite Hclean.
  destruct (returncode (subprocess_run w (freeze_command self)) =? 0)%Z
    eqn:Hfreeze; simpl negb; cbv iota; [|done].
  apply Z.eqb_eq in Hfreeze.
  assert (files (redirected w (freeze_command self)
                   (os_path_join d "requirements-old.txt")
                   (os_path_join d "freeze-error.txt") s)
            !! os_path_join d "requirements-old.txt"
          = Some (stdout (subprocess_run w (freeze_command self))))
    as Hfrozen.
  { by apply lookup_redirected_stdout, os_path_join_ne. }
  destruct (0 <? _)%nat eqn:Hsize.
  - destruct (returncode _ =? 0)%Z eqn:Huninstall; simpl negb; cbv iota;
      [|done].
    apply Z.eqb_eq in Huninstall. intros [= <-].
    split; [done|]. split; [done|].
    rewrite redirected_lookup_other
      by (intros H%os_path_join_inj; done).
    exact Hfrozen.
  - apply length_zero_iff_empty in Hsize. intros [= <-].
    split; [done|]. split; [done|]. exact Hfrozen.
Qed.

Lemma clean_step_keeps_frozen_requirements_witness :
  ∃ s',
    clean_step frozen_world (example_self true) empty_state
    = (Return (), s') ∧
    files s' !! "/tmp/tmpk3x/requirements-old.txt" = Some "six==2.0".
Proof.
  destruct (returns_true
              (clean_step frozen_world (example_self true) empty_state))
    as ([] & s' & Hclean); [vm_compute; reflexivity|].
  exists s'. split; [exact Hclean|].
  exact (proj2 (proj2 (clean_step_keeps_frozen_requirements frozen_world
                         (example_self true) "/tmp/tmpk3x" empty_state s'
                         eq_refl eq_refl Hclean))).
Defined.
